(** * Calonx: nutrition resolution, range statistics and service caches

    A shallow embedding of
    - [getNutritionValue], [calculateTotalNutrition] and the handlers of
      the ingredient editor of [client/app/(tabs)/camera.tsx], and
    - the reads, the mutations and the caches of [NutritionService] in
      [server/src/services/nutrition.ts].

    Conventions.  A JavaScript number is an exact rational ([Q]); the values
    that reach this code are JSON numbers and database columns, which are
    finite, and [NaN] only arises as the answer of [parseFloat] on a string
    that does not start with a number, which is [None] here.  A point in
    time is its number of milliseconds since the epoch ([Z]).  An object is
    an association list read by key. *)

From Stdlib Require Import ZArith QArith Qround Lia Lqa List Permutation Sorted.
From Stdlib Require Import Ascii String.
From stdpp Require Import gmap strings list fin_maps.

Set Warnings "-register-all".

Local Open Scope string_scope.
Local Open Scope Z_scope.

(** ** Strings *)

Module Str.

(** [drop_prefix p s] is the rest of [s] after its prefix [p]. *)
Fixpoint drop_prefix (p s : string) : option string :=
  match p, s with
  | EmptyString, _ => Some s
  | String a p', String b s' =>
      if Ascii.eqb a b then drop_prefix p' s' else None
  | String _ _, EmptyString => None
  end.

(** [s.replace(pat, "")] with a string pattern: the first occurrence of
    [pat] is dropped, a string without one is returned as it is. *)
Fixpoint replace_first (pat s : string) : string :=
  match drop_prefix pat s with
  | Some rest => rest
  | None =>
      match s with
      | EmptyString => EmptyString
      | String c s' => String c (replace_first pat s')
      end
  end.

(** [hay.includes(needle)]. *)
Fixpoint includes (hay needle : string) : bool :=
  match drop_prefix needle hay with
  | Some _ => true
  | None =>
      match hay with
      | EmptyString => false
      | String _ hay' => includes hay' needle
      end
  end.

Definition digit_of (c : ascii) : option Z :=
  let n := Z.of_N (N_of_ascii c) in
  if (48 <=? n) && (n <=? 57) then Some (n - 48) else None.

(** White space skipped by [parseFloat] (the ASCII part of it). *)
Definition is_space (c : ascii) : bool :=
  let n := Z.of_N (N_of_ascii c) in
  (n =? 32) || ((9 <=? n) && (n <=? 13)).

Fixpoint skip_spaces (s : string) : string :=
  match s with
  | String c s' => if is_space c then skip_spaces s' else s
  | EmptyString => s
  end.

(** Longest run of decimal digits at the head of [s]: its value on top of
    [acc], how many digits were read, and what follows. *)
Fixpoint read_digits (s : string) (acc : Z) (n : nat) : Z * nat * string :=
  match s with
  | String c s' =>
      match digit_of c with
      | Some d => read_digits s' (10 * acc + d) (S n)
      | None => (acc, n, s)
      end
  | EmptyString => (acc, n, s)
  end.

(** Decimal rendering of a natural number. *)
Fixpoint digits_of (fuel : nat) (n : Z) (acc : string) : string :=
  match fuel with
  | O => acc
  | S fuel' =>
      let acc' := String (ascii_of_N (Z.to_N (48 + n mod 10))) acc in
      if n / 10 =? 0 then acc' else digits_of fuel' (n / 10) acc'
  end.

Fixpoint zeros (n : nat) : string :=
  match n with
  | O => ""
  | S n' => "0" ++ zeros n'
  end.

(** [s.padStart(width, "0")]. *)
Definition pad_left (width : nat) (s : string) : string :=
  zeros (width - String.length s) ++ s.

Definition of_Z (n : Z) : string :=
  if n <? 0 then "-" ++ digits_of (S (Z.to_nat (Z.log2 (- n)))) (- n) ""
  else digits_of (S (Z.to_nat (Z.log2 n))) n "".

Definition padded (width : nat) (n : Z) : string :=
  pad_left width (of_Z n).

(** [s.substring(s.indexOf(c) + 1)] when [c] occurs in [s]. *)
Fixpoint after_first (c : ascii) (s : string) : option string :=
  match s with
  | EmptyString => None
  | String c' s' => if Ascii.eqb c c' then Some s' else after_first c s'
  end.

Definition startsWith (s p : string) : bool :=
  match drop_prefix p s with
  | Some _ => true
  | None => false
  end.

End Str.

(** ** Numbers *)

Module Num.

Definition ltb (a b : Q) : bool := negb (Qle_bool b a).
Definition is_zero (a : Q) : bool := Qeq_bool a 0.

(** [Math.round]: the nearest integer, halves towards plus infinity. *)
Definition Math_round (q : Q) : Z := Qfloor (q + (1 # 2)).

(** [Math.round(v * 100) / 100]. *)
Definition round2 (q : Q) : Q :=
  (inject_Z (Math_round (q * 100)) / 100)%Q.

(** The exponent part [e[+-]digits] of a decimal literal, when there is a
    complete one at the head of [s]; zero otherwise. *)
Definition read_exponent (s : string) : Z :=
  match s with
  | String c s' =>
      if Ascii.eqb c "e" || Ascii.eqb c "E" then
        let '(sign, rest) :=
          match s' with
          | String "+" r => (1, r)
          | String "-" r => (-1, r)
          | _ => (1, s')
          end in
        let '(e, n, _) := Str.read_digits rest 0 0 in
        match n with O => 0 | _ => sign * e end
      else 0
  | EmptyString => 0
  end.

(** [parseFloat]: leading white space is skipped and the longest prefix that
    is a decimal literal is read; [None] is [NaN].  The literal [Infinity]
    denotes no rational and reads as [None] as well. *)
Definition parseFloat (s : string) : option Q :=
  let s0 := Str.skip_spaces s in
  let '(sign, s1) :=
    match s0 with
    | String "+" r => (1, r)
    | String "-" r => (-1, r)
    | _ => (1, s0)
    end in
  let '(ip, ni, s2) := Str.read_digits s1 0 0 in
  let '(fp, nf, s3) :=
    match s2 with
    | String "." r => Str.read_digits r ip 0
    | _ => (ip, O, s2)
    end in
  match ni, nf with
  | O, O => None
  | _, _ =>
      let e := read_exponent s3 - Z.of_nat nf in
      Some (Qred (inject_Z (sign * fp) * Qpower 10 e))
  end.


(** Value of a digit in base [radix], when it is one. *)
Definition radix_digit (radix : Z) (c : ascii) : option Z :=
  let n := Z.of_N (N_of_ascii c) in
  let d :=
    if (48 <=? n) && (n <=? 57) then n - 48
    else if (97 <=? n) && (n <=? 122) then n - 87
    else if (65 <=? n) && (n <=? 90) then n - 55
    else radix in
  if d <? radix then Some d else None.

Fixpoint read_radix (radix : Z) (s : string) (acc : option Z) : option Z :=
  match s with
  | String c s' =>
      match radix_digit radix c with
      | Some d =>
          read_radix radix s'
            (Some (radix * match acc with Some a => a | None => 0 end + d))
      | None => acc
      end
  | EmptyString => acc
  end.

(** [parseInt(s)] without a radix: white space, a sign, an optional [0x]
    that selects base sixteen, then the longest run of digits; [None] is
    [NaN]. *)
Definition parseInt (s : string) : option Z :=
  let s0 := Str.skip_spaces s in
  let '(sign, s1) :=
    match s0 with
    | String "+" r => (1, r)
    | String "-" r => (-1, r)
    | _ => (1, s0)
    end in
  let magnitude :=
    match s1 with
    | String "0" (String "x" r) | String "0" (String "X" r) =>
        read_radix 16 r None
    | _ => read_radix 10 s1 None
    end in
  match magnitude with
  | Some n => Some (sign * n)
  | None => None
  end.

End Num.


(** ** JavaScript values *)

Module Js.

Inductive jsval : Type :=
| VUndef
| VNull
| VBool (b : bool)
| VNum (q : Q)
| VStr (s : string)
| VArr (items : list jsval)
| VObj (props : list (string * jsval)).

Definition jsobj : Type := list (string * jsval).

(** [o[k]]: the first binding of [k], [undefined] without one. *)
Fixpoint get (o : jsobj) (k : string) : jsval :=
  match o with
  | [] => VUndef
  | (k', v) :: o' => if String.eqb k' k then v else get o' k
  end.

(** [{...o, k: v}]: an existing key keeps its place. *)
Fixpoint set (k : string) (v : jsval) (o : jsobj) : jsobj :=
  match o with
  | [] => [(k, v)]
  | (k', v') :: o' =>
      if String.eqb k' k then (k, v) :: o' else (k', v') :: set k v o'
  end.

(** [{...a, ...b}]. *)
Definition spread (a b : jsobj) : jsobj :=
  fold_left (fun acc kv => set (fst kv) (snd kv) acc) b a.



(** [Boolean(v)], the truthiness that [||], [!] and [if] read. *)
Definition truthy (v : jsval) : bool :=
  match v with
  | VUndef | VNull => false
  | VBool b => b
  | VNum q => negb (Num.is_zero q)
  | VStr s => negb (String.eqb s "")
  | VArr _ | VObj _ => true
  end.

(** [v.k] on a value that is neither [null] nor [undefined]; only an
    object has the properties read here. *)
Definition prop (v : jsval) (k : string) : jsval :=
  match v with
  | VObj o => get o k
  | _ => VUndef
  end.

(** [a || b]. *)
Definition or (a b : jsval) : jsval := if truthy a then a else b.

(** [a || b] on two numbers. *)
Definition nor (a b : Q) : Q := if Num.is_zero a then b else a.

(** The own enumerable properties that a spread [...v] copies. *)
Fixpoint indexed (i : Z) (l : list jsval) : jsobj :=
  match l with
  | [] => []
  | x :: l' => (Str.of_Z i, x) :: indexed (i + 1) l'
  end.

Fixpoint chars (s : string) : list jsval :=
  match s with
  | EmptyString => []
  | String c s' => VStr (String c EmptyString) :: chars s'
  end.

Definition own_props (v : jsval) : jsobj :=
  match v with
  | VObj o => o
  | VArr l => indexed 0 l
  | VStr s => indexed 0 (chars s)
  | _ => []
  end.

End Js.

(** ** The client: [camera.tsx] *)

Module Client.
Import Js.

(** The spellings of [field] that [getNutritionValue] tries, in order. *)
Definition variations (field : string) : list string :=
  [ field;
    Str.replace_first "_g" field;
    Str.replace_first "_mg" field;
    Str.replace_first "g" field;
    Str.replace_first "mg" field ].

(** One turn of the loop over the variations: [Some r] when the turn
    returns [r], [None] when it falls through to the next variation. *)
Definition candidate (value : jsval) : option Q :=
  match value with
  | VNum q =>
      if Num.ltb 0 q then Some (inject_Z (Num.Math_round q)) else None
  | VStr s =>
      match Num.parseFloat s with
      | Some q => Some (inject_Z (Num.Math_round q))
      | None => None
      end
  | _ => None
  end.

Fixpoint first_candidate (data : jsobj) (vs : list string) : Q :=
  match vs with
  | [] => 0
  | v :: vs' =>
      match candidate (get data v) with
      | Some r => r
      | None => first_candidate data vs'
      end
  end.

Definition getNutritionValue (data : option jsobj) (field : string) : Q :=
  match data with
  | None => 0
  | Some d => first_candidate d (variations field)
  end.

(** The part of the screen state that the totals read: the analysis of the
    pending meal and the ingredient list as the user edited it.  The
    [ingredients] array of an analysis, which no resolution reads as a number,
    is kept apart from its other [fields]. *)
Record AnalysisData : Type := {
  fields : jsobj;
  ingredients : option (list jsobj)
}.

Record ScreenState : Type := {
  editedIngredients : list jsobj;
  analysisData : option AnalysisData
}.

Record TotalNutrition : Type := {
  calories : jsval;
  protein : Q;
  carbs : Q;
  fat : Q;
  fiber : Q;
  sugar : Q;
  sodium : Q
}.

(** [editedIngredients.length > 0 ? editedIngredients
      : analysisData?.ingredients || []]. *)
Definition currentIngredients (st : ScreenState) : list jsobj :=
  match editedIngredients st with
  | _ :: _ => editedIngredients st
  | [] =>
      match analysisData st with
      | Some ad =>
          match ingredients ad with
          | Some l => l
          | None => []
          end
      | None => []
      end
  end.

(** [analysisData ? get(analysisData, c) || get(analysisData, a) || 0 : 0]. *)
Definition mealValue (ad : option AnalysisData) (c a : string) : Q :=
  match ad with
  | Some d =>
      nor (nor (getNutritionValue (Some (fields d)) c)
               (getNutritionValue (Some (fields d)) a)) 0
  | None => 0
  end.

(** [analysisData?.calories || 0]. *)
Definition mealCalories (ad : option AnalysisData) : jsval :=
  match ad with
  | Some d => or (get (fields d) "calories") (VNum 0)
  | None => VNum 0
  end.

(** What one ingredient adds to a sum:
    [get(ingredient, c) || get(ingredient, a)]. *)
Definition ingredientValue (c a : string) (ingredient : jsobj) : Q :=
  nor (getNutritionValue (Some ingredient) c)
      (getNutritionValue (Some ingredient) a).

(** The [forEach] that adds into a sum starting from zero. *)
Definition sumOver (f : jsobj -> Q) (l : list jsobj) : Q :=
  fold_left (fun acc ingredient => (acc + f ingredient)%Q) l 0%Q.

Definition calculateTotalNutrition (st : ScreenState) : TotalNutrition :=
  let current := currentIngredients st in
  match analysisData st, current with
  | None, [] =>
      {| calories := VNum 0; protein := 0; carbs := 0; fat := 0;
         fiber := 0; sugar := 0; sodium := 0 |}
  | ad, _ =>
      let totalCalories := mealCalories ad in
      let totalProtein := mealValue ad "protein_g" "protein" in
      let totalCarbs := mealValue ad "carbs_g" "carbs" in
      let totalFat := mealValue ad "fats_g" "fat" in
      let totalFiber := mealValue ad "fiber_g" "fiber" in
      let totalSugar := mealValue ad "sugar_g" "sugar" in
      let totalSodium := mealValue ad "sodium_mg" "sodium" in
      match current with
      | _ :: _ =>
          let ingredientSumCalories :=
            sumOver (fun i => getNutritionValue (Some i) "calories") current in
          let ingredientSumProtein :=
            sumOver (ingredientValue "protein_g" "protein") current in
          let ingredientSumCarbs :=
            sumOver (ingredientValue "carbs_g" "carbs") current in
          let ingredientSumFat :=
            sumOver (ingredientValue "fats_g" "fat") current in
          let ingredientSumFiber :=
            sumOver (ingredientValue "fiber_g" "fiber") current in
          let ingredientSumSugar :=
            sumOver (ingredientValue "sugar_g" "sugar") current in
          let ingredientSumSodium :=
            sumOver (ingredientValue "sodium_mg" "sodium") current in
          {| calories := or (VNum ingredientSumCalories) totalCalories;
             protein := nor ingredientSumProtein totalProtein;
             carbs := nor ingredientSumCarbs totalCarbs;
             fat := nor ingredientSumFat totalFat;
             fiber := nor ingredientSumFiber totalFiber;
             sugar := nor ingredientSumSugar totalSugar;
             sodium := nor ingredientSumSodium totalSodium |}
      | [] =>
          {| calories := totalCalories; protein := totalProtein;
             carbs := totalCarbs; fat := totalFat; fiber := totalFiber;
             sugar := totalSugar; sodium := totalSodium |}
      end
  end.

(** *** Vocabulary of the properties *)



Inductive Nutrient : Type :=
| Calories | Protein | Carbs | Fat | Fiber | Sugar | Sodium.

(** The total that [calculateTotalNutrition] reports for a nutrient. *)
Definition reported (n : Nutrient) (t : TotalNutrition) : jsval :=
  match n with
  | Calories => calories t
  | Protein => VNum (protein t)
  | Carbs => VNum (carbs t)
  | Fat => VNum (fat t)
  | Fiber => VNum (fiber t)
  | Sugar => VNum (sugar t)
  | Sodium => VNum (sodium t)
  end.




End Client.


(** ** Dates *)

Module Date.

Definition msPerDay : Z := 86400000.

(** Days since the epoch of a proleptic Gregorian date. *)
Definition days_from_civil (y m d : Z) : Z :=
  let y' := if m <=? 2 then y - 1 else y in
  let era := y' / 400 in
  let yoe := y' - era * 400 in
  let mp := if 2 <? m then m - 3 else m + 9 in
  let doy := (153 * mp + 2) / 5 + d - 1 in
  let doe := yoe * 365 + yoe / 4 - yoe / 100 + doy in
  era * 146097 + doe - 719468.

(** Year, month and day of a number of days since the epoch. *)
Definition civil_from_days (z : Z) : Z * Z * Z :=
  let z' := z + 719468 in
  let era := z' / 146097 in
  let doe := z' - era * 146097 in
  let yoe := (doe - doe / 1460 + doe / 36524 - doe / 146096) / 365 in
  let doy := doe - (365 * yoe + yoe / 4 - yoe / 100) in
  let mp := (5 * doy + 2) / 153 in
  let d := doy - (153 * mp + 2) / 5 + 1 in
  let m := if mp <? 10 then mp + 3 else mp - 9 in
  let y := yoe + era * 400 in
  (if m <=? 2 then y + 1 else y, m, d).

Definition year_string (y : Z) : string :=
  if (0 <=? y) && (y <=? 9999) then Str.padded 4 y
  else if y <? 0 then "-" ++ Str.padded 6 (- y)
  else "+" ++ Str.padded 6 y.

(** [d.toISOString().split("T")[0]]: the UTC calendar day of an instant. *)
Definition isoDate (ms : Z) : string :=
  let '(y, m, d) := civil_from_days (ms / msPerDay) in
  year_string y ++ "-" ++ Str.padded 2 m ++ "-" ++ Str.padded 2 d.

(** [d.toISOString()]. *)
Definition toISOString (ms : Z) : string :=
  let t := ms mod msPerDay in
  isoDate ms ++ "T" ++ Str.padded 2 (t / 3600000) ++ ":"
    ++ Str.padded 2 (t / 60000 mod 60) ++ ":"
    ++ Str.padded 2 (t / 1000 mod 60) ++ "."
    ++ Str.padded 3 (t mod 1000) ++ "Z".

(** Exactly [n] decimal digits at the head of [s]. *)
Fixpoint fixed_digits (n : nat) (s : string) (acc : Z) : option (Z * string) :=
  match n with
  | O => Some (acc, s)
  | S n' =>
      match s with
      | String c s' =>
          match Str.digit_of c with
          | Some d => fixed_digits n' s' (10 * acc + d)
          | None => None
          end
      | EmptyString => None
      end
  end.

Definition expect (c : ascii) (s : string) : option string :=
  match s with
  | String c' s' => if Ascii.eqb c c' then Some s' else None
  | EmptyString => None
  end.

(** [new Date(s)] for the date-time string format, in its date-only form
    [YYYY-MM-DD] and its UTC form [YYYY-MM-DDTHH:mm:ss.sssZ]; [None] is an
    invalid date.  As in V8, a day up to 31 is accepted in every month and
    counted on from the first of the month.  What the language leaves to
    the implementation (other formats) is an invalid date here. *)
Definition parse (s : string) : option Z :=
  '(y, s) ← fixed_digits 4 s 0;
  s ← expect "-" s;
  '(m, s) ← fixed_digits 2 s 0;
  s ← expect "-" s;
  '(d, s) ← fixed_digits 2 s 0;
  if negb ((1 <=? m) && (m <=? 12) && (1 <=? d) && (d <=? 31)) then None
  else
    let day := days_from_civil y m 1 + d - 1 in
    match s with
    | EmptyString => Some (day * msPerDay)
    | _ =>
        s ← expect "T" s;
        '(hh, s) ← fixed_digits 2 s 0;
        s ← expect ":" s;
        '(mm, s) ← fixed_digits 2 s 0;
        s ← expect ":" s;
        '(ss, s) ← fixed_digits 2 s 0;
        s ← expect "." s;
        '(ms, s) ← fixed_digits 3 s 0;
        s ← expect "Z" s;
        match s with
        | EmptyString =>
            if ((hh <=? 23) && (mm <=? 59) && (ss <=? 59))
               || ((hh =? 24) && (mm =? 0) && (ss =? 0) && (ms =? 0))
            then Some (day * msPerDay + hh * 3600000 + mm * 60000
                       + ss * 1000 + ms)
            else None
        | _ => None
        end
    end.

End Date.


(** ** The server: [services/nutrition.ts] *)

Module Server.
Import Js.

(** A call either returns or throws an [Error] with a message. *)
Inductive result (A : Type) : Type :=
| Ok (a : A)
| Err (message : string).
Arguments Ok {A} a.
Arguments Err {A} message.

(** The numeric columns over which statistics are taken. *)
Inductive NumericField : Type :=
| calories | protein_g | carbs_g | fats_g
| saturated_fats_g | polyunsaturated_fats_g | monounsaturated_fats_g
| omega_3_g | omega_6_g
| fiber_g | soluble_fiber_g | insoluble_fiber_g
| sugar_g | cholesterol_mg | sodium_mg
| alcohol_g | caffeine_mg | liquids_ml | serving_size_g
| glycemic_index | insulin_index | confidence.

#[global] Instance NumericField_eq_dec : EqDecision NumericField.
Proof. solve_decision. Defined.

Definition numericFields : list NumericField :=
  [ calories; protein_g; carbs_g; fats_g;
    saturated_fats_g; polyunsaturated_fats_g; monounsaturated_fats_g;
    omega_3_g; omega_6_g;
    fiber_g; soluble_fiber_g; insoluble_fiber_g;
    sugar_g; cholesterol_mg; sodium_mg;
    alcohol_g; caffeine_mg; liquids_ml; serving_size_g;
    glycemic_index; insulin_index; confidence ].

Definition field_name (f : NumericField) : string :=
  match f with
  | calories => "calories" | protein_g => "protein_g"
  | carbs_g => "carbs_g" | fats_g => "fats_g"
  | saturated_fats_g => "saturated_fats_g"
  | polyunsaturated_fats_g => "polyunsaturated_fats_g"
  | monounsaturated_fats_g => "monounsaturated_fats_g"
  | omega_3_g => "omega_3_g" | omega_6_g => "omega_6_g"
  | fiber_g => "fiber_g" | soluble_fiber_g => "soluble_fiber_g"
  | insoluble_fiber_g => "insoluble_fiber_g"
  | sugar_g => "sugar_g" | cholesterol_mg => "cholesterol_mg"
  | sodium_mg => "sodium_mg" | alcohol_g => "alcohol_g"
  | caffeine_mg => "caffeine_mg" | liquids_ml => "liquids_ml"
  | serving_size_g => "serving_size_g"
  | glycemic_index => "glycemic_index"
  | insulin_index => "insulin_index" | confidence => "confidence"
  end.

(** A row of the meal table, with the columns that the operations below
    read back; the text and JSON columns that are only written (allergens,
    vitamins, food category and the like) are left out.  A numeric column is
    a number or null.  The ingredients column holds an array, which is what
    every write of this service stores. *)
Record Meal : Type := {
  meal_id : Z;
  user_id : string;
  image_url : option string;
  upload_time : Z;
  analysis_status : string;
  meal_name : option string;
  meal_period : option string;
  num : NumericField -> option Q;
  additives_json : jsval;
  ingredients : list jsval;
  created_at : Z;
  updated_at : Z
}.

(** What the range query selects of a row, which is also what a day of the
    breakdown keeps of it. *)
Record MealSummary : Type := {
  sum_meal_id : Z;
  sum_user_id : string;
  sum_meal_name : option string;
  sum_num : NumericField -> option Q;
  sum_created_at : Z;
  sum_upload_time : Z
}.

Record DaySummary : Type := {
  date : string;
  meals : list MealSummary
}.

(** A number per field: the [totals] object and the [total_] and
    [average_] entries of the statistics, in the order of their keys. *)
Definition PerField : Type := list (NumericField * Q).

Record RangeStatistics : Type := {
  totalDays : Z;
  totalMeals : Z;
  total : PerField;
  average : PerField;
  dailyBreakdown : list DaySummary;
  dateRange : option (string * string)
}.

(** The statistics cache holds range statistics and, under other keys, the
    results of the daily statistics. *)
Inductive StatsData : Type :=
| RangeData (s : RangeStatistics)
| OtherData (v : jsval).

Record CacheEntry (A : Type) : Type := {
  data : A;
  timestamp : Z
}.
Arguments data {A} _.
Arguments timestamp {A} _.

Definition CACHE_DURATION : Z := 5 * 60 * 1000.

(** The table and the two module-level caches. *)
Record State : Type := {
  db : list Meal;
  userStatsCache : gmap string (CacheEntry StatsData);
  mealsCache : gmap string (CacheEntry (list jsval))
}.

(** *** The store *)

(** What [prisma.meal.create] and [update] are given.  Columns whose value
    the caller computes with [||] carry whatever came out of it. *)
Record MealInput : Type := {
  in_user_id : string;
  in_image_url : option string;
  in_upload_time : Z;
  in_analysis_status : string;
  in_meal_name : jsval;
  in_num : NumericField -> jsval;
  in_additives_json : jsval;
  in_ingredients : list jsval;
  in_created_at : Z;
  in_meal_period : jsval
}.

(** How the store reads a value for a nullable numeric or text column;
    [None] when the value is not of the column's type. *)
Definition column_number (v : jsval) : option (option Q) :=
  match v with
  | VNum q => Some (Some q)
  | VNull | VUndef => Some None
  | _ => None
  end.

Definition column_text (v : jsval) : option (option string) :=
  match v with
  | VStr s => Some (Some s)
  | VNull | VUndef => Some None
  | _ => None
  end.

Definition of_column (c : option Q) : jsval :=
  match c with
  | Some q => VNum q
  | None => VNull
  end.

Definition of_text (c : option string) : jsval :=
  match c with
  | Some s => VStr s
  | None => VNull
  end.

(** The row that an input writes under identifier [id]; the store refuses
    ([None]) a value that is not of its column's type. *)
Definition row_of_input (id : Z) (updated : Z) (i : MealInput) : option Meal :=
  if forallb (fun f => bool_decide (is_Some (column_number (in_num i f))))
             numericFields
  then
    name ← column_text (in_meal_name i);
    period ← column_text (in_meal_period i);
    Some {| meal_id := id;
            user_id := in_user_id i;
            image_url := in_image_url i;
            upload_time := in_upload_time i;
            analysis_status := in_analysis_status i;
            meal_name := name;
            meal_period := period;
            num := fun f => default None (column_number (in_num i f));
            additives_json := in_additives_json i;
            ingredients := in_ingredients i;
            created_at := in_created_at i;
            updated_at := updated |}
  else None.

(** The identifier that the next created row gets. *)
Definition next_id (rows : list Meal) : Z :=
  1 + fold_right Z.max 0 (map meal_id rows).

(** [prisma.meal.create({ data })]. *)
Definition create (now : Z) (i : MealInput) (rows : list Meal)
  : option (Meal * list Meal) :=
  meal ← row_of_input (next_id rows) now i;
  Some (meal, (rows ++ [meal])%list).

(** [prisma.meal.findFirst({ where: { meal_id, user_id } })]. *)
Definition findFirst (rows : list Meal) (id : Z) (owner : string)
  : option Meal :=
  List.find (fun m => (meal_id m =? id) && String.eqb (user_id m) owner) rows.

(** [prisma.meal.update({ where: { meal_id }, data })]. *)
Definition update (id : Z) (change : Meal -> Meal) (rows : list Meal)
  : list Meal :=
  map (fun m => if meal_id m =? id then change m else m) rows.

Definition with_additives (a : jsval) (m : Meal) : Meal :=
  {| meal_id := meal_id m; user_id := user_id m; image_url := image_url m;
     upload_time := upload_time m; analysis_status := analysis_status m;
     meal_name := meal_name m; meal_period := meal_period m; num := num m;
     additives_json := a; ingredients := ingredients m;
     created_at := created_at m; updated_at := updated_at m |}.

(** *** Helpers of [utils/nutrition] and of the module *)

(** Modelled from the spec: [asJsonObject] of [utils/nutrition], which is
    not among the sources.  A stored object is read as it is; anything else
    degrades to the empty object (malformed stored data "degrades
    gracefully to an empty structure"). *)
Definition asJsonObject (v : jsval) : jsobj :=
  match v with
  | VObj o => o
  | _ => []
  end.

(** Modelled from the spec: [mapExistingMealToPrismaInput] of
    [utils/nutrition], which is not among the sources.  The duplicate is "a
    new record with that date and the original's nutrient fields", owned by
    the caller. *)
Definition mapExistingMealToPrismaInput (m : Meal) (owner : string)
    (duplicateDate : Z) : MealInput :=
  {| in_user_id := owner;
     in_image_url := image_url m;
     in_upload_time := duplicateDate;
     in_analysis_status := analysis_status m;
     in_meal_name := of_text (meal_name m);
     in_num := fun f => of_column (num m f);
     in_additives_json := additives_json m;
     in_ingredients := ingredients m;
     in_created_at := duplicateDate;
     in_meal_period := of_text (meal_period m) |}.

(** The numeric columns as [mapMealDataToPrismaFields] fills them. *)
Definition mapped_num (mealData : jsobj) (f : NumericField) : jsval :=
  let d := get mealData in
  match f with
  | protein_g => or (or (d "protein_g") (d "protein")) (VNum 0)
  | carbs_g => or (or (d "carbs_g") (d "carbs")) (VNum 0)
  | fats_g => or (or (d "fats_g") (d "fat")) (VNum 0)
  | fiber_g => or (or (d "fiber_g") (d "fiber")) (VNum 0)
  | sugar_g => or (or (d "sugar_g") (d "sugar")) (VNum 0)
  | sodium_mg => or (or (d "sodium_mg") (d "sodium")) (VNum 0)
  | confidence => or (d "confidence") (VNum 75)
  | _ => or (d (field_name f)) (VNum 0)
  end.

Definition mapMealDataToPrismaFields (now : Z) (mealData : jsobj)
    (owner : string) (imageBase64 : option string)
    (mealType mealPeriod : jsval) : MealInput :=
  let ingredients :=
    match get mealData "ingredients" with
    | VArr l => l
    | _ => []
    end in
  let finalMealPeriod :=
    or (or (or mealPeriod (get mealData "mealPeriod"))
           (get mealData "meal_period")) (VStr "other") in
  {| in_user_id := owner;
     in_image_url :=
       match imageBase64 with
       | Some b => if String.eqb b "" then None
                   else Some ("data:image/jpeg;base64," ++ b)
       | None => None
       end;
     in_upload_time := now;
     in_analysis_status := "COMPLETED";
     in_meal_name :=
       or (or (get mealData "meal_name") (get mealData "name"))
          (VStr "Unknown Meal");
     in_num := mapped_num mealData;
     in_additives_json := or (get mealData "additives_json") (VObj []);
     in_ingredients := ingredients;
     in_created_at := now;
     in_meal_period := finalMealPeriod |}.

Definition transformMealForClient (meal : Meal) : jsobj :=
  let additives := or (additives_json meal) (VObj []) in
  let feedback := or (prop additives "feedback") (VObj []) in
  let n f := of_column (num meal f) in
  [ ("meal_id", VNum (inject_Z (meal_id meal)));
    ("user_id", VStr (user_id meal));
    ("image_url", of_text (image_url meal));
    ("upload_time", VStr (Date.toISOString (upload_time meal)));
    ("analysis_status", VStr (analysis_status meal));
    ("meal_name", of_text (meal_name meal));
    ("calories", n calories);
    ("protein_g", n protein_g);
    ("carbs_g", n carbs_g);
    ("fats_g", n fats_g);
    ("fiber_g", n fiber_g);
    ("sugar_g", n sugar_g);
    ("sodium_mg", n sodium_mg);
    ("created_at", VStr (Date.toISOString (created_at meal)));
    ("id", VStr (Str.of_Z (meal_id meal)));
    ("name", or (of_text (meal_name meal)) (VStr "Unknown Meal"));
    ("description", of_text (meal_name meal));
    ("imageUrl", of_text (image_url meal));
    ("protein", or (n protein_g) (VNum 0));
    ("carbs", or (n carbs_g) (VNum 0));
    ("fat", or (n fats_g) (VNum 0));
    ("fiber", or (n fiber_g) (VNum 0));
    ("sugar", or (n sugar_g) (VNum 0));
    ("sodium", or (n sodium_mg) (VNum 0));
    ("userId", VStr (user_id meal));
    ("ingredients", VArr (ingredients meal));
    ("isFavorite", or (prop additives "isFavorite") (VBool false));
    ("is_favorite", or (prop additives "isFavorite") (VBool false));
    ("tasteRating", or (prop feedback "tasteRating") (VNum 0));
    ("satietyRating", or (prop feedback "satietyRating") (VNum 0));
    ("energyRating", or (prop feedback "energyRating") (VNum 0));
    ("heavinessRating", or (prop feedback "heavinessRating") (VNum 0));
    ("taste_rating", or (prop feedback "tasteRating") (VNum 0));
    ("satiety_rating", or (prop feedback "satietyRating") (VNum 0));
    ("energy_rating", or (prop feedback "energyRating") (VNum 0));
    ("heaviness_rating", or (prop feedback "heavinessRating") (VNum 0));
    ("meal_period", or (of_text (meal_period meal)) (VStr "other"));
    ("mealPeriod", or (of_text (meal_period meal)) (VStr "other")) ].

(** *** Cache invalidation *)

(** The keys of a cache that contain [owner]: the [keysToDelete] of
    [clearUserCaches] and [clearUserMealsCaches]. *)
Definition keysToDelete {A : Type} (owner : string) (cache : gmap string A)
  : list string :=
  List.filter (fun key => Str.includes key owner)
              (List.map fst (map_to_list cache)).

Definition delete_all {A : Type} (keys : list string) (cache : gmap string A)
  : gmap string A :=
  fold_left (fun c key => delete key c) keys cache.

Definition clearUserCaches (owner : string) (st : State) : State :=
  {| db := db st;
     userStatsCache :=
       delete_all (keysToDelete owner (userStatsCache st)) (userStatsCache st);
     mealsCache := mealsCache st |}.

Definition clearUserMealsCaches (owner : string) (st : State) : State :=
  {| db := db st;
     userStatsCache := userStatsCache st;
     mealsCache :=
       delete_all (keysToDelete owner (mealsCache st)) (mealsCache st) |}.

Definition clearAllCaches (st : State) : State :=
  {| db := db st; userStatsCache := ∅; mealsCache := ∅ |}.

Definition with_db (rows : list Meal) (st : State) : State :=
  {| db := rows;
     userStatsCache := userStatsCache st;
     mealsCache := mealsCache st |}.

(** The entry under [key], unless it is older than the cache duration. *)
Definition cached {A : Type} (now : Z) (cache : gmap string (CacheEntry A))
    (key : string) : option A :=
  match cache !! key with
  | Some entry =>
      if now - timestamp entry <? CACHE_DURATION then Some (data entry)
      else None
  | None => None
  end.

(** *** Mutations *)

(** The message of the error that the store raises on a value it refuses. *)
Definition storeError : string := "Invalid value provided".

Definition saveMeal (now : Z) (owner : string) (mealData : jsobj)
    (imageBase64 : option string) (st : State) : result (jsobj * State) :=
  match create now
          (mapMealDataToPrismaFields now mealData owner imageBase64
             (get mealData "mealType") (get mealData "mealPeriod"))
          (db st) with
  | Some (meal, rows) => Ok (transformMealForClient meal, with_db rows st)
  | None => Err "Failed to save meal"
  end.

(** The request that [updateMeal] hands to [analyzeMeal]. *)
Record MealAnalysisInput : Type := {
  imageBase64 : string;
  language : string;
  analysisDate : string;
  updateText : string;
  editedIngredients : list jsval;
  mealPeriod : string
}.

Section Mutations.

(** [analyzeMeal] reaches the image analyser and the user table, and reads
    or writes neither the meal table nor the caches.  It is a parameter:
    the [data] of what it returns, or the error that it throws. *)
Variable analyzeMeal : string -> MealAnalysisInput -> result jsobj.

Definition updateMeal (now : Z) (owner : string) (meal_id_param : string)
    (text : string) (lang : option string) (st : State)
  : result (Meal * State) :=
  match Num.parseInt meal_id_param with
  | None => Err storeError
  | Some id =>
  match findFirst (db st) id owner with
  | None => Err "Meal not found or access denied"
  | Some existingMeal =>
      let image :=
        match image_url existingMeal with
        | Some url =>
            if Str.startsWith url "data:image/" then
              match Str.after_first "," url with
              | Some rest => rest
              | None => ""
              end
            else url
        | None => ""
        end in
      if String.eqb image "" then Err "No image data found for this meal"
      else
        let period :=
          match meal_period existingMeal with
          | Some p => if String.eqb p "" then "other" else p
          | None => "other"
          end in
        match analyzeMeal owner
                {| imageBase64 := image;
                   language :=
                     match lang with
                     | Some l => if String.eqb l "" then "english" else l
                     | None => "english"
                     end;
                   analysisDate := Date.isoDate now;
                   updateText := text;
                   editedIngredients := ingredients existingMeal;
                   mealPeriod := period |} with
        | Err message => Err message
        | Ok analysisData =>
            let updatedMealData :=
              mapMealDataToPrismaFields now analysisData owner (Some image)
                VUndef (VStr period) in
            match row_of_input id now updatedMealData with
            | None => Err storeError
            | Some updatedMeal =>
                Ok (updatedMeal,
                    clearUserMealsCaches owner
                      (with_db (update id (fun _ => updatedMeal) (db st)) st))
            end
        end
  end
  end.

End Mutations.

Definition saveMealFeedback (now : Z) (owner : string) (meal_id_param : string)
    (feedback : jsval) (st : State) : result (string * jsval * State) :=
  match Num.parseInt meal_id_param with
  | None => Err storeError
  | Some id =>
  match findFirst (db st) id owner with
  | None => Err "Meal not found"
  | Some meal =>
      let additives := asJsonObject (additives_json meal) in
      let existingFeedback := asJsonObject (get additives "feedback") in
      let updatedAdditives :=
        set "feedback"
          (VObj (set "updatedAt" (VStr (Date.toISOString now))
                   (spread existingFeedback (own_props feedback))))
          additives in
      let rows :=
        update (meal_id meal) (with_additives (VObj updatedAdditives))
               (db st) in
      Ok (meal_id_param, feedback, clearUserCaches owner (with_db rows st))
  end
  end.

Definition toggleMealFavorite (now : Z) (owner : string)
    (meal_id_param : string) (st : State) : result (string * bool * State) :=
  match Num.parseInt meal_id_param with
  | None => Err storeError
  | Some id =>
  match findFirst (db st) id owner with
  | None => Err "Meal not found"
  | Some meal =>
      let additives := asJsonObject (additives_json meal) in
      let current := truthy (get additives "isFavorite") in
      let updatedAdditives :=
        set "favoriteUpdatedAt" (VStr (Date.toISOString now))
          (set "isFavorite" (VBool (negb current)) additives) in
      let rows :=
        update (meal_id meal) (with_additives (VObj updatedAdditives))
               (db st) in
      Ok (meal_id_param, negb current,
          clearUserCaches owner (with_db rows st))
  end
  end.

Definition duplicateMeal (now : Z) (owner : string) (meal_id_param : string)
    (newDate : option string) (st : State) : result (jsobj * State) :=
  match Num.parseInt meal_id_param with
  | None => Err storeError
  | Some id =>
  match findFirst (db st) id owner with
  | None => Err "Meal not found"
  | Some originalMeal =>
      let duplicateDate :=
        match newDate with
        | Some d => if String.eqb d "" then Some now else Date.parse d
        | None => Some now
        end in
      match duplicateDate with
      | None => Err storeError
      | Some day =>
          match create now (mapExistingMealToPrismaInput originalMeal owner day)
                  (db st) with
          | None => Err storeError
          | Some (duplicatedMeal, rows) =>
              Ok (transformMealForClient duplicatedMeal,
                  clearUserCaches owner (with_db rows st))
          end
      end
  end
  end.

(** *** Range statistics *)

Definition select_summary (m : Meal) : MealSummary :=
  {| sum_meal_id := meal_id m;
     sum_user_id := user_id m;
     sum_meal_name := meal_name m;
     sum_num := num m;
     sum_created_at := created_at m;
     sum_upload_time := upload_time m |}.

(** [orderBy: { created_at: "asc" }]. *)
Fixpoint insert_by_created_at (m : Meal) (l : list Meal) : list Meal :=
  match l with
  | [] => [m]
  | x :: l' =>
      if created_at m <=? created_at x then m :: l
      else x :: insert_by_created_at m l'
  end.

Definition sort_by_created_at (l : list Meal) : list Meal :=
  fold_right insert_by_created_at [] l.

(** The [where] clause of the range query. *)
Definition in_range (owner : string) (startDateTime endDateTime : Z)
    (m : Meal) : bool :=
  String.eqb (user_id m) owner
  && (startDateTime <=? created_at m) && (created_at m <=? endDateTime).

(** [prisma.meal.findMany({ where, orderBy, select })] of
    [getRangeStatistics]. *)
Definition findManyInRange (rows : list Meal) (owner : string)
    (startDateTime endDateTime : Z) : list MealSummary :=
  List.map select_summary
    (sort_by_created_at
       (List.filter (in_range owner startDateTime endDateTime) rows)).

(** [(meal[field] as number) || 0]. *)
Definition field_or_zero (meal : MealSummary) (f : NumericField) : Q :=
  match sum_num meal f with
  | Some q => nor q 0
  | None => 0
  end.

(** [totals[field]]; every field is set before it is read. *)
Fixpoint read (totals : PerField) (f : NumericField) : Q :=
  match totals with
  | [] => 0%Q
  | (g, v) :: totals' => if decide (g = f) then v else read totals' f
  end.

(** [totals[field] = v]: a key that is there keeps its place. *)
Fixpoint assign (totals : PerField) (f : NumericField) (v : Q) : PerField :=
  match totals with
  | [] => [(f, v)]
  | (g, w) :: totals' =>
      if decide (g = f) then (g, v) :: totals'
      else (g, w) :: assign totals' f v
  end.

(** The loop over the fields for one meal. *)
Definition add_meal (totals : PerField) (meal : MealSummary) : PerField :=
  fold_left
    (fun t f => assign t f (read t f + field_or_zero meal f)%Q)
    numericFields totals.

(** [totals] after the two loops. *)
Definition sum_totals (meals : list MealSummary) : PerField :=
  fold_left add_meal meals
    (fold_left (fun t f => assign t f 0%Q) numericFields []).

(** [Object.entries(o).map(([key, val]) => [key, g(val)])]. *)
Definition map_values (g : Q -> Q) (o : PerField) : PerField :=
  List.map (fun kv => (fst kv, g (snd kv))) o.

Definition dayOf (meal : MealSummary) : string :=
  Date.isoDate (sum_created_at meal).

Definition uniqueDates (meals : list MealSummary) : gset string :=
  list_to_set (List.map dayOf meals).

(** One step of the [reduce] that groups the meals by day: the days are
    kept in the order in which they were first seen. *)
Fixpoint add_to_day (day : string) (entry : MealSummary)
    (acc : list DaySummary) : list DaySummary :=
  match acc with
  | [] => [ {| date := day; meals := [entry] |} ]
  | d :: acc' =>
      if String.eqb (date d) day
      then {| date := date d; meals := (meals d ++ [entry])%list |} :: acc'
      else d :: add_to_day day entry acc'
  end.

(** The summary that is pushed for a meal: a copy of the selected row. *)
Definition pushed (meal : MealSummary) : MealSummary :=
  {| sum_meal_id := sum_meal_id meal;
     sum_user_id := sum_user_id meal;
     sum_meal_name := sum_meal_name meal;
     sum_num := sum_num meal;
     sum_created_at := sum_created_at meal;
     sum_upload_time := sum_upload_time meal |}.

Definition dailyData (meals : list MealSummary) : list DaySummary :=
  fold_left (fun acc meal => add_to_day (dayOf meal) (pushed meal) acc)
            meals [].

(** [dailyBreakdown.sort((a, b) => a.date.localeCompare(b.date))]: a stable
    sort; the dates are compared as strings. *)
Fixpoint insert_day (d : DaySummary) (l : list DaySummary) : list DaySummary :=
  match l with
  | [] => [d]
  | x :: l' =>
      match String.compare (date d) (date x) with
      | Gt => x :: insert_day d l'
      | _ => d :: l
      end
  end.

Definition sort_days (l : list DaySummary) : list DaySummary :=
  fold_right insert_day [] l.

Definition emptyResult : RangeStatistics :=
  {| totalDays := 0;
     totalMeals := 0;
     total := List.map (fun f => (f, 0%Q)) numericFields;
     average := List.map (fun f => (f, 0%Q)) numericFields;
     dailyBreakdown := [];
     dateRange := None |}.

(** The statistics of a non-empty query result. *)
Definition statisticsOf (meals : list MealSummary) (startDate endDate : string)
  : RangeStatistics :=
  let totals := sum_totals meals in
  let totalDays := Z.of_nat (size (uniqueDates meals)) in
  let averages :=
    map_values
      (fun val =>
         if 0 <? totalDays then (val / inject_Z totalDays)%Q else 0%Q)
      totals in
  {| totalDays := totalDays;
     totalMeals := Z.of_nat (length meals);
     total := map_values Num.round2 totals;
     average := map_values Num.round2 averages;
     dailyBreakdown := sort_days (dailyData meals);
     dateRange := Some (startDate, endDate) |}.

Definition statsKey (owner startDate endDate : string) : string :=
  "stats_" ++ owner ++ "_" ++ startDate ++ "_" ++ endDate.

Definition with_stats (key : string) (now : Z) (s : RangeStatistics)
    (st : State) : State :=
  {| db := db st;
     userStatsCache :=
       <[ key := {| data := RangeData s; timestamp := now |} ]>
         (userStatsCache st);
     mealsCache := mealsCache st |}.

Definition getRangeStatistics (now : Z) (owner startDate endDate : string)
    (st : State) : result (StatsData * State) :=
  let cacheKey := statsKey owner startDate endDate in
  match cached now (userStatsCache st) cacheKey with
  | Some hit => Ok (hit, st)
  | None =>
      match Date.parse (startDate ++ "T00:00:00.000Z"),
            Date.parse (endDate ++ "T23:59:59.999Z") with
      | Some startDateTime, Some endDateTime =>
          let meals :=
            findManyInRange (db st) owner startDateTime endDateTime in
          let statistics :=
            match meals with
            | [] => emptyResult
            | _ :: _ => statisticsOf meals startDate endDate
            end in
          Ok (RangeData statistics, with_stats cacheKey now statistics st)
      | _, _ => Err storeError
      end
  end.

(** The key under which [getDailyStats] caches its result. *)
Definition dailyKey (owner day : string) : string :=
  "daily_" ++ owner ++ "_" ++ day.

(** *** The list of meals *)

Definition mealsKey (owner : string) (offset limit : Z) : string :=
  "user_meals_" ++ owner ++ "_" ++ Str.of_Z offset ++ "_" ++ Str.of_Z limit.

(** [orderBy: { created_at: "desc" }]. *)
Fixpoint insert_newest_first (m : Meal) (l : list Meal) : list Meal :=
  match l with
  | [] => [m]
  | x :: l' =>
      if created_at x <=? created_at m then m :: l
      else x :: insert_newest_first m l'
  end.

Definition newest_first (l : list Meal) : list Meal :=
  fold_right insert_newest_first [] l.

(** A row as the [select] of [getUserMeals] returns it; a date is written
    as its ISO string. *)
Definition selected (meal : Meal) : jsobj :=
  ([ ("meal_id", VNum (inject_Z (meal_id meal)));
     ("user_id", VStr (user_id meal));
     ("image_url", of_text (image_url meal));
     ("upload_time", VStr (Date.toISOString (upload_time meal)));
     ("analysis_status", VStr (analysis_status meal));
     ("meal_name", of_text (meal_name meal));
     ("meal_period", of_text (meal_period meal)) ]
   ++ List.map (fun f => (field_name f, of_column (num meal f))) numericFields
   ++ [ ("additives_json", additives_json meal);
        ("ingredients", VArr (ingredients meal));
        ("created_at", VStr (Date.toISOString (created_at meal)));
        ("updated_at", VStr (Date.toISOString (updated_at meal))) ])%list.

(** One element of [processedMeals]: the row, with the keys of the older
    client format on top. *)
Definition processedMeal (meal : Meal) : jsval :=
  let row := selected meal in
  VObj (spread row
    [ ("id", VStr (Str.of_Z (meal_id meal)));
      ("name", get row "meal_name");
      ("imageUrl", get row "image_url");
      ("userId", get row "user_id");
      ("uploadTime", get row "upload_time");
      ("createdAt", get row "created_at");
      ("meal_period", or (get row "meal_period") (VStr "other"));
      ("mealPeriod", or (get row "meal_period") (VStr "other"));
      ("protein", get row "protein_g");
      ("carbs", get row "carbs_g");
      ("fat", get row "fats_g");
      ("fats", get row "fats_g");
      ("fiber", get row "fiber_g");
      ("sugar", get row "sugar_g");
      ("sodium", get row "sodium_mg");
      ("ingredients", or (get row "ingredients") (VArr []));
      ("tasteRating", or (get row "taste_rating") (VNum 0));
      ("satietyRating", or (get row "satiety_rating") (VNum 0));
      ("energyRating", or (get row "energy_rating") (VNum 0));
      ("heavinessRating", or (get row "heaviness_rating") (VNum 0));
      ("isFavorite", or (get row "is_favorite") (VBool false));
      ("description", get row "description");
      ("confidence", get row "confidence");
      ("analysisStatus", get row "analysis_status") ]).

(** [getUserMeals]; the offset and the limit are natural numbers. *)
Definition getUserMeals (now : Z) (owner : string) (offset limit : nat)
    (st : State) : result (list jsval * State) :=
  let cacheKey := mealsKey owner (Z.of_nat offset) (Z.of_nat limit) in
  match cached now (mealsCache st) cacheKey with
  | Some hit => Ok (hit, st)
  | None =>
      let found :=
        take limit
          (drop offset
             (newest_first
                (List.filter (fun m => String.eqb (user_id m) owner)
                             (db st)))) in
      let processedMeals := List.map processedMeal found in
      Ok (processedMeals,
          {| db := db st;
             userStatsCache := userStatsCache st;
             mealsCache :=
               <[ cacheKey := {| data := processedMeals; timestamp := now |} ]>
                 (mealsCache st) |})
  end.

(** *** Vocabulary of the properties *)


(** The meals of [owner] whose creation time lies in the closed interval,
    in table order. *)
Definition mealsBetween (rows : list Meal) (owner : string)
    (startDateTime endDateTime : Z) : list MealSummary :=
  List.map select_summary
    (List.filter (in_range owner startDateTime endDateTime) rows).

(** All the meals of a breakdown, day after day. *)
Definition breakdownMeals (days : list DaySummary) : list MealSummary :=
  concat (List.map meals days).

(** A breakdown is grouped by day: no two entries have the same date, no
    entry is empty, and every meal of an entry was created on the UTC
    calendar day that is the date of the entry. *)
Definition groupedByDay (days : list DaySummary) : Prop :=
  NoDup (List.map date days)
  /\ forall d, d ∈ days ->
       meals d <> [] /\ forall m, m ∈ meals d -> dayOf m = date d.




(** The statistics that a read computes when it misses the cache, for a
    range whose bounds are the instants [a] and [b]. *)
Definition computed (rows : list Meal) (owner startDate endDate : string)
    (a b : Z) : RangeStatistics :=
  match findManyInRange rows owner a b with
  | [] => emptyResult
  | _ :: _ => statisticsOf (findManyInRange rows owner a b) startDate endDate
  end.

(** A key is built for [owner] when one of the three reads builds it. *)
Definition key_of (owner key : string) : Prop :=
  (exists startDate endDate, key = statsKey owner startDate endDate)
  \/ (exists day, key = dailyKey owner day)
  \/ (exists offset limit, key = mealsKey owner offset limit).

(** The favourite flag as the claim reads it: a boolean, anything else
    counting as false. *)
Definition boolean_flag (v : jsval) : bool :=
  match v with
  | VBool b => b
  | _ => false
  end.

(** *** Scenarios *)

Definition sampleMeal (id : Z) (owner : string) (time : Z)
    (kcal protein : option Q) (additives : jsval) : Meal :=
  {| meal_id := id;
     user_id := owner;
     image_url := Some "data:image/jpeg;base64,AAAA";
     upload_time := time;
     analysis_status := "COMPLETED";
     meal_name := Some "lunch";
     meal_period := Some "lunch";
     num := fun f =>
       match f with
       | calories => kcal
       | protein_g => protein
       | _ => None
       end;
     additives_json := additives;
     ingredients := [];
     created_at := time;
     updated_at := time |}.

(** 2024-01-15T00:00:00.000Z. *)
Definition monday : Z := 1705276800000.

(** Three meals of [u1] on Monday, one on Tuesday, and a meal of [u12]. *)
Definition sampleTable : list Meal :=
  [ sampleMeal 1 "u1" (monday + 8 * 3600000) (Some 100%Q) (Some (5 # 2))
      (VObj [ ("isFavorite", VBool true);
              ("feedback", VObj [ ("tasteRating", VNum 3);
                                  ("satietyRating", VNum 2) ]) ]);
    sampleMeal 2 "u1" (monday + 12 * 3600000) (Some 200%Q) (Some (1 # 8))
      VNull;
    sampleMeal 3 "u1" (monday + 19 * 3600000) (Some 300%Q) None
      (VObj [ ("isFavorite", VStr "yes") ]);
    sampleMeal 4 "u1" (monday + Date.msPerDay + 9 * 3600000) (Some 400%Q)
      (Some 1%Q) (VObj []);
    sampleMeal 5 "u12" (monday + 10 * 3600000) (Some 50%Q) (Some 2%Q)
      (VObj []) ].

Definition freshState : State :=
  {| db := sampleTable; userStatsCache := ∅; mealsCache := ∅ |}.

Definition statsEntry : CacheEntry StatsData :=
  {| data := RangeData emptyResult; timestamp := monday |}.

Definition mealsEntry : CacheEntry (list jsval) :=
  {| data := []; timestamp := monday |}.

(** Both caches hold an entry of [u1] and an entry of [u12]. *)
Definition cachedState : State :=
  {| db := sampleTable;
     userStatsCache :=
       <[ statsKey "u1" "2024-01-15" "2024-01-16" := statsEntry ]>
         (<[ statsKey "u12" "2024-01-15" "2024-01-16" := statsEntry ]> ∅);
     mealsCache :=
       <[ mealsKey "u1" 0 100 := mealsEntry ]>
         (<[ mealsKey "u12" 0 100 := mealsEntry ]> ∅) |}.

(** Monday evening, and the state after [u1] has read the list of meals
    and the statistics of Monday and Tuesday. *)
Definition evening : Z := monday + 20 * 3600000.

Definition afterReads : State :=
  match getUserMeals evening "u1" 0 100 freshState with
  | Ok (_, st) =>
      match getRangeStatistics evening "u1" "2024-01-15" "2024-01-16" st with
      | Ok (_, st') => st'
      | Err _ => st
      end
  | Err _ => freshState
  end.

(** An analyser that answers a bowl of soup. *)
Definition soup (_ : string) (_ : MealAnalysisInput) : result jsobj :=
  Ok [ ("name", VStr "soup"); ("calories", VNum 120) ].

End Server.

(** ** Records as their interfaces type them *)

Module Shape.
Import Js.

(** The fields that the interfaces [Ingredient] and [AnalysisData] type as
    strings; every other field is a number. *)
Definition textFields : list string :=
  [ "name"; "meal_name"; "description"; "healthScore"; "recommendations";
    "cookingMethod"; "cooking_method"; "food_category"; "servingSize";
    "healthNotes" ].

(** A record holds text in its text fields only. *)
Definition typed (d : jsobj) : Prop :=
  forall k s, get d k = VStr s -> In k textFields.

(** The same, as a check on the bindings of a record. *)
Definition well_typed (d : jsobj) : bool :=
  forallb
    (fun kv =>
       match snd kv with
       | VStr _ => existsb (String.eqb (fst kv)) textFields
       | _ => true
       end) d.

(** No spelling of [field] that the resolver tries holds text in [d]. *)
Definition reads_no_text (d : jsobj) (field : string) : Prop :=
  forall v s, In v (Client.variations field) -> get d v <> VStr s.



(** The field names that the totals of the screen are resolved from. *)
Definition screenFields : list string :=
  [ "calories"; "protein_g"; "protein"; "carbs_g"; "carbs"; "fats_g"; "fat";
    "fiber_g"; "fiber"; "sugar_g"; "sugar"; "sodium_mg"; "sodium" ].

(** A number that is a non-negative integer. *)
Definition count (q : Q) : Prop := exists z, 0 <= z /\ (q == inject_Z z)%Q.

End Shape.

(** ** The client: the ingredient editor of [camera.tsx] *)

Module Editor.
Import Js.


(** A slot of an array: an element, an [undefined] element, or a hole,
    which only an assignment beyond the end of an array brings about. *)
Inductive slot : Type :=
| Item (x : jsobj)
| Undefined
| Hole.

(** The state of the editor. *)
Record EditorState : Type := {
  editedIngredients : list slot;
  editingIngredient : option jsobj;
  editingIndex : Z;
  showEditModal : bool
}.





(** [a.filter((_, i) => i !== index)], counting from [i]: a hole is not
    visited and is not kept. *)
Fixpoint filter_out (i index : Z) (a : list slot) : list slot :=
  match a with
  | [] => []
  | Hole :: a' => filter_out (i + 1) index a'
  | x :: a' =>
      if i =? index then filter_out (i + 1) index a'
      else x :: filter_out (i + 1) index a'
  end.

Definition handleRemoveIngredient (index : Z) (st : EditorState)
  : EditorState :=
  {| editedIngredients := filter_out 0 index (editedIngredients st);
     editingIngredient := editingIngredient st;
     editingIndex := editingIndex st;
     showEditModal := showEditModal st |}.









End Editor.

(** ** The statistics of a day *)

Module Daily.
Import Js Server.

(** What the [reduce] of [getDailyStats] accumulates. *)
Record DailyResult : Type := {
  day_calories : Q;
  day_protein : Q;
  day_carbs : Q;
  day_fat : Q;
  day_fiber : Q;
  day_sugar : Q;
  meal_count : Z
}.

Definition initial : DailyResult :=
  {| day_calories := 0; day_protein := 0; day_carbs := 0; day_fat := 0;
     day_fiber := 0; day_sugar := 0; meal_count := 0 |}.

(** [meal.calories || 0] on a nullable numeric column. *)
Definition column_or_zero (c : option Q) : Q :=
  match c with
  | Some q => nor q 0
  | None => 0
  end.

Definition add_daily (acc : DailyResult) (meal : Meal) : DailyResult :=
  {| day_calories :=
       (day_calories acc + column_or_zero (num meal calories))%Q;
     day_protein := (day_protein acc + column_or_zero (num meal protein_g))%Q;
     day_carbs := (day_carbs acc + column_or_zero (num meal carbs_g))%Q;
     day_fat := (day_fat acc + column_or_zero (num meal fats_g))%Q;
     day_fiber := (day_fiber acc + column_or_zero (num meal fiber_g))%Q;
     day_sugar := (day_sugar acc + column_or_zero (num meal sugar_g))%Q;
     meal_count := meal_count acc + 1 |}.

(** The result as the object that is cached and returned. *)
Definition to_object (r : DailyResult) : jsval :=
  VObj [ ("calories", VNum (day_calories r));
         ("protein", VNum (day_protein r));
         ("carbs", VNum (day_carbs r));
         ("fat", VNum (day_fat r));
         ("fiber", VNum (day_fiber r));
         ("sugar", VNum (day_sugar r));
         ("meal_count", VNum (inject_Z (meal_count r))) ].

(** The [where] clause: the owner, from the start inclusive to the end
    exclusive. *)
Definition in_day (owner : string) (startDate endDate : Z) (m : Meal) : bool :=
  String.eqb (user_id m) owner
  && (startDate <=? created_at m) && (created_at m <? endDate).

Section Host.

(** [d.setDate(d.getDate() + 1)] works on the local calendar: the instant
    one calendar day later in the time zone of the host, which is a
    parameter. *)
Variable nextLocalDay : Z -> Z.

Definition getDailyStats (now : Z) (owner day : string) (st : State)
  : result (StatsData * State) :=
  let cacheKey := dailyKey owner day in
  match cached now (userStatsCache st) cacheKey with
  | Some hit => Ok (hit, st)
  | None =>
      match Date.parse day with
      | None => Err "Failed to fetch daily stats"
      | Some startDate =>
          let endDate := nextLocalDay startDate in
          let meals := List.filter (in_day owner startDate endDate) (db st) in
          let result := to_object (fold_left add_daily meals initial) in
          Ok (OtherData result,
              {| db := db st;
                 userStatsCache :=
                   <[ cacheKey := {| data := OtherData result;
                                     timestamp := now |} ]>
                     (userStatsCache st);
                 mealsCache := mealsCache st |})
      end
  end.

End Host.

(** A host whose time zone is UTC. *)
Definition utcNextDay (t : Z) : Z := t + Date.msPerDay.

End Daily.

(** ** Cache keys *)

Module Keys.

(** A string without an underscore, the character that separates the parts
    of a cache key. *)
Fixpoint plain (s : string) : bool :=
  match s with
  | EmptyString => true
  | String c s' => negb (Ascii.eqb c "_") && plain s'
  end.

End Keys.

(** * Properties *)

(** ** Numbers *)

Module NumFacts.
Import Num.



Lemma ltb_true (a b : Q) : ltb a b = true <-> (a < b)%Q.
Proof.
  unfold ltb. rewrite negb_true_iff. split.
  - intros H. apply Qnot_le_lt. intros Hle. apply Qle_bool_iff in Hle. congruence.
  - intros H. destruct (Qle_bool b a) eqn:E; [|reflexivity].
    apply Qle_bool_iff in E. exfalso. eapply Qlt_not_le; eauto.
Qed.


(** [Math.round] answers the nearest integer. *)
Lemma Math_round_nearest (q : Q) :
  (inject_Z (Math_round q) - (1 # 2) <= q)%Q
  /\ (q < inject_Z (Math_round q) + (1 # 2))%Q.
Proof.
  unfold Math_round.
  pose proof (Qfloor_le (q + (1 # 2))) as Hle.
  pose proof (Qlt_floor (q + (1 # 2))) as Hlt.
  rewrite inject_Z_plus in Hlt. change (inject_Z 1) with 1%Q in Hlt.
  split; lra.
Qed.

#[global] Instance round2_proper : Proper (Qeq ==> Qeq) round2.
Proof.
  intros a b Hab. unfold round2, Math_round.
  assert (Qfloor (a * 100 + (1 # 2)) = Qfloor (b * 100 + (1 # 2))) as ->.
  { apply Qfloor_comp. rewrite Hab. reflexivity. }
  reflexivity.
Qed.

Lemma round2_zero : (round2 0 == 0)%Q.
Proof. reflexivity. Qed.




End NumFacts.

(** ** The resolver *)

Module ClientFacts.
Import Js Client.











(** C5: a field that is present under the exact name that is asked for,
    with a positive number, resolves to that number rounded to the nearest
    integer, whatever else the record holds: the exact name is the first
    candidate. *)
Theorem exact_name_wins (d : jsobj) (field : string) (q : Q) :
  get d field = VNum q -> (0 < q)%Q ->
  getNutritionValue (Some d) field = inject_Z (Num.Math_round q)
  /\ (inject_Z (Num.Math_round q) - (1 # 2) <= q)%Q
  /\ (q < inject_Z (Num.Math_round q) + (1 # 2))%Q
  /\ hd_error (variations field) = Some field.
Proof.
  intros Hget Hq. split; [|split; [|split]].
  - unfold getNutritionValue, variations. simpl. rewrite Hget. simpl.
    rewrite (proj2 (NumFacts.ltb_true 0 q) Hq). reflexivity.
  - apply NumFacts.Math_round_nearest.
  - apply NumFacts.Math_round_nearest.
  - reflexivity.
Qed.

Lemma exact_name_wins_witness :
  getNutritionValue
    (Some [("protein", VNum 99); ("protein_g", VNum (25 # 2))]) "protein_g"
  = 13%Q.
Proof.
  apply (exact_name_wins
           [("protein", VNum 99); ("protein_g", VNum (25 # 2))]
           "protein_g" (25 # 2)); reflexivity.
Defined.







End ClientFacts.

(** ** Strings *)

Module StrFacts.
Import Str.

Lemma drop_prefix_app (p s : string) : drop_prefix p (p ++ s) = Some s.
Proof.
  induction p as [|c p IH]; simpl; [reflexivity|].
  rewrite Ascii.eqb_refl. assumption.
Qed.

Lemma includes_unfold (hay needle : string) :
  includes hay needle
  = match drop_prefix needle hay with
    | Some _ => true
    | None =>
        match hay with
        | EmptyString => false
        | String _ hay' => includes hay' needle
        end
    end.
Proof. destruct hay; reflexivity. Qed.

Lemma includes_here (needle rest : string) :
  includes (needle ++ rest) needle = true.
Proof. rewrite includes_unfold, drop_prefix_app. reflexivity. Qed.

Lemma includes_later (p hay needle : string) :
  includes hay needle = true -> includes (p ++ hay) needle = true.
Proof.
  intros H. induction p as [|c p IH]; [assumption|].
  change (String c p ++ hay) with (String c (p ++ hay)).
  rewrite includes_unfold.
  destruct (drop_prefix needle (String c (p ++ hay)));
    [reflexivity|assumption].
Qed.

(** A key that is built around an owner contains that owner. *)
Lemma includes_middle (p owner q : string) :
  includes (p ++ owner ++ q) owner = true.
Proof. apply includes_later, includes_here. Qed.

End StrFacts.

(** ** The caches *)

Module CacheFacts.
Import Js Server.

Section Cache.
Context {A : Type}.
Implicit Types (cache : gmap string A) (key owner : string).

Lemma lookup_delete_all (keys : list string) cache key :
  delete_all keys cache !! key
  = if decide (key ∈ keys) then None else cache !! key.
Proof.
  unfold delete_all. revert cache.
  induction keys as [|k keys IH]; intros cache; cbn [fold_left].
  - destruct (decide (key ∈ [])) as [H|?]; [|reflexivity].
    by apply elem_of_nil in H.
  - rewrite IH. destruct (decide (key = k)) as [->|Hne].
    + rewrite lookup_delete_eq.
      rewrite (decide_True (P := k ∈ k :: keys)) by (by left).
      destruct (decide (k ∈ keys)); reflexivity.
    + rewrite lookup_delete_ne by congruence.
      destruct (decide (key ∈ keys)) as [Hin|Hout].
      * rewrite (decide_True (P := key ∈ k :: keys)) by (by right).
        reflexivity.
      * rewrite (decide_False (P := key ∈ k :: keys)); [reflexivity|].
        intros [?|?]%elem_of_cons; contradiction.
Qed.

Lemma elem_of_keysToDelete owner cache key :
  key ∈ keysToDelete owner cache
  ↔ Str.includes key owner = true ∧ is_Some (cache !! key).
Proof.
  unfold keysToDelete.
  rewrite list_elem_of_In, filter_In, <- list_elem_of_In.
  change (List.map fst (map_to_list cache)) with ((map_to_list cache).*1).
  rewrite list_elem_of_fmap. split.
  - intros [[[k v] [-> Hin]] Hinc]. simpl in *.
    apply elem_of_map_to_list in Hin. split; [assumption|by eexists].
  - intros [Hinc [v Hv]]. split; [|assumption].
    exists (key, v). split; [reflexivity|]. by apply elem_of_map_to_list.
Qed.

(** Invalidation by owner removes exactly the entries whose key contains
    the owner as a substring. *)
Lemma lookup_invalidated owner cache key :
  delete_all (keysToDelete owner cache) cache !! key
  = if Str.includes key owner then None else cache !! key.
Proof.
  rewrite lookup_delete_all. case_decide as Hin.
  - apply elem_of_keysToDelete in Hin as [-> _]. reflexivity.
  - destruct (Str.includes key owner) eqn:Hinc; [|reflexivity].
    destruct (cache !! key) as [v|] eqn:Hv; [|reflexivity].
    exfalso. apply Hin, elem_of_keysToDelete. split; [assumption|by eexists].
Qed.

End Cache.

Lemma key_of_includes (owner key : string) :
  key_of owner key -> Str.includes key owner = true.
Proof.
  intros [[sd [ed ->]]|[[day ->]|[offset [limit ->]]]];
    apply StrFacts.includes_middle.
Qed.

(** C8, as amended: invalidation by owner removes every entry whose key
    contains the owner as a substring, among them every key built for that
    owner, and leaves untouched the entries whose key does not contain it;
    the keys of another owner stay only if the owner is not a substring of
    them.  This holds for the statistics cache ([clearUserCaches]) and for the
    meals cache ([clearUserMealsCaches]). *)
Theorem invalidation_is_by_substring (owner key : string) (st : State) :
  userStatsCache (clearUserCaches owner st) !! key
  = (if Str.includes key owner then None else userStatsCache st !! key)
  /\ mealsCache (clearUserMealsCaches owner st) !! key
     = (if Str.includes key owner then None else mealsCache st !! key)
  /\ (key_of owner key ->
      userStatsCache (clearUserCaches owner st) !! key = None
      /\ mealsCache (clearUserMealsCaches owner st) !! key = None)
  /\ (Str.includes key owner = false ->
      userStatsCache (clearUserCaches owner st) !! key
      = userStatsCache st !! key
      /\ mealsCache (clearUserMealsCaches owner st) !! key
         = mealsCache st !! key).
Proof.
  unfold clearUserCaches, clearUserMealsCaches. simpl.
  rewrite !lookup_invalidated.
  split; [reflexivity|]. split; [reflexivity|]. split.
  - intros Hkey. rewrite (key_of_includes owner key Hkey). split; reflexivity.
  - intros ->. split; reflexivity.
Qed.

Lemma invalidation_is_by_substring_witness :
  userStatsCache (clearUserCaches "u12" cachedState)
    !! statsKey "u12" "2024-01-15" "2024-01-16" = None
  /\ userStatsCache (clearUserCaches "u12" cachedState)
       !! statsKey "u1" "2024-01-15" "2024-01-16" = Some statsEntry.
Proof.
  split.
  - apply (invalidation_is_by_substring "u12"
             (statsKey "u12" "2024-01-15" "2024-01-16") cachedState).
    left. exists "2024-01-15", "2024-01-16". reflexivity.
  - rewrite (proj1 (proj2 (proj2 (proj2 (invalidation_is_by_substring "u12"
               (statsKey "u1" "2024-01-15" "2024-01-16") cachedState)))
               eq_refl)).
    reflexivity.
Defined.

(** C8, as stated, fails: invalidating owner [u1] also removes the entries
    of owner [u12], whose keys contain [u1]. *)
Lemma other_owner_is_invalidated :
  "u1" <> "u12"
  /\ key_of "u12" (statsKey "u12" "2024-01-15" "2024-01-16")
  /\ userStatsCache cachedState !! statsKey "u12" "2024-01-15" "2024-01-16"
     = Some statsEntry
  /\ userStatsCache (clearUserCaches "u1" cachedState)
       !! statsKey "u12" "2024-01-15" "2024-01-16" = None
  /\ mealsCache cachedState !! mealsKey "u12" 0 100 = Some mealsEntry
  /\ mealsCache (clearUserMealsCaches "u1" cachedState)
       !! mealsKey "u12" 0 100 = None.
Proof.
  split; [discriminate|]. split.
  { left. exists "2024-01-15", "2024-01-16". reflexivity. }
  repeat split; vm_compute; reflexivity.
Qed.

End CacheFacts.

(** ** Objects *)

Module JsFacts.
Import Js.

Lemma get_set_eq (k : string) (v : jsval) (o : jsobj) : get (set k v o) k = v.
Proof.
  induction o as [|[k' v'] o IH]; simpl.
  - rewrite String.eqb_refl. reflexivity.
  - destruct (String.eqb k' k) eqn:E; simpl.
    + rewrite String.eqb_refl. reflexivity.
    + rewrite E. assumption.
Qed.

Lemma get_set_ne (k k' : string) (v : jsval) (o : jsobj) :
  k' <> k -> get (set k v o) k' = get o k'.
Proof.
  intros Hne. induction o as [|[k0 v0] o IH]; simpl.
  - destruct (String.eqb k k') eqn:E; [|reflexivity].
    apply String.eqb_eq in E. congruence.
  - destruct (String.eqb k0 k) eqn:E; simpl.
    + apply String.eqb_eq in E. subst k0.
      destruct (String.eqb k k') eqn:E'; [|reflexivity].
      apply String.eqb_eq in E'. congruence.
    + rewrite IH. reflexivity.
Qed.


End JsFacts.

(** ** Mutations *)

Module MutationFacts.
Import Js Server.

Lemma findFirst_Some (rows : list Meal) (id : Z) (owner : string) (meal : Meal) :
  findFirst rows id owner = Some meal ->
  meal_id meal = id /\ user_id meal = owner.
Proof.
  unfold findFirst. intros H. apply find_some in H as [_ H].
  apply andb_true_iff in H as [Hid Hown].
  apply Z.eqb_eq in Hid. apply String.eqb_eq in Hown. split; assumption.
Qed.

(** After an update that keeps the identifier and the owner of a row, the
    lookup that found the row finds the changed row. *)
Lemma findFirst_update (rows : list Meal) (id : Z) (owner : string)
    (meal : Meal) (change : Meal -> Meal) :
  (forall m, meal_id (change m) = meal_id m /\ user_id (change m) = user_id m) ->
  findFirst rows id owner = Some meal ->
  findFirst (update (meal_id meal) change rows) id owner = Some (change meal).
Proof.
  intros Hkeep Hfind.
  destruct (findFirst_Some _ _ _ _ Hfind) as [Hid _].
  rewrite Hid. clear Hid. revert Hfind. unfold findFirst, update.
  induction rows as [|x rows IH]; simpl; [discriminate|].
  destruct (Hkeep x) as [Hkid Hkown].
  destruct ((meal_id x =? id) && String.eqb (user_id x) owner) eqn:E.
  - intros [= ->]. apply andb_true_iff in E as [Eid Eown].
    rewrite Eid. rewrite Hkid, Hkown, Eid, Eown. reflexivity.
  - intros Hrest. destruct (meal_id x =? id) eqn:Eid.
    + rewrite Hkid, Hkown, Eid. simpl in E |- *. rewrite E.
      apply IH. assumption.
    + rewrite Eid. simpl. apply IH. assumption.
Qed.


Lemma with_additives_keeps (a : jsval) (m : Meal) :
  meal_id (with_additives a m) = meal_id m
  /\ user_id (with_additives a m) = user_id m.
Proof. split; reflexivity. Qed.

(** What each mutation does to the two caches, whenever it returns. *)
Lemma saveMeal_caches now owner mealData image st r st' :
  saveMeal now owner mealData image st = Ok (r, st') ->
  userStatsCache st' = userStatsCache st /\ mealsCache st' = mealsCache st.
Proof.
  unfold saveMeal. destruct (create _ _ _) as [[meal rows]|]; [|discriminate].
  intros [= _ <-]. split; reflexivity.
Qed.

Lemma updateMeal_caches analyzeMeal now owner id text lang st r st' :
  updateMeal analyzeMeal now owner id text lang st = Ok (r, st') ->
  userStatsCache st' = userStatsCache st.
Proof.
  unfold updateMeal.
  destruct (Num.parseInt id); [|discriminate].
  destruct (findFirst _ _ _); [|discriminate].
  destruct (String.eqb _ ""); [discriminate|].
  destruct (analyzeMeal _ _); [|discriminate].
  destruct (row_of_input _ _ _); [|discriminate].
  intros [= _ <-]. reflexivity.
Qed.

Lemma saveMealFeedback_caches now owner id feedback st r st' :
  saveMealFeedback now owner id feedback st = Ok (r, st') ->
  mealsCache st' = mealsCache st.
Proof.
  unfold saveMealFeedback.
  destruct (Num.parseInt id); [|discriminate].
  destruct (findFirst _ _ _); [|discriminate].
  intros [= _ <-]. reflexivity.
Qed.

Lemma toggleMealFavorite_caches now owner id st r st' :
  toggleMealFavorite now owner id st = Ok (r, st') ->
  mealsCache st' = mealsCache st.
Proof.
  unfold toggleMealFavorite.
  destruct (Num.parseInt id); [|discriminate].
  destruct (findFirst _ _ _); [|discriminate].
  intros [= _ <-]. reflexivity.
Qed.

Lemma duplicateMeal_caches now owner id newDate st r st' :
  duplicateMeal now owner id newDate st = Ok (r, st') ->
  mealsCache st' = mealsCache st.
Proof.
  unfold duplicateMeal.
  destruct (Num.parseInt id); [|discriminate].
  destruct (findFirst _ _ _); [|discriminate].
  destruct (match newDate with Some _ => _ | None => _ end); [|discriminate].
  destruct (create _ _ _) as [[meal rows]|]; [|discriminate].
  intros [= _ <-]. reflexivity.
Qed.

(** C1 fails on the code: each mutation returns with a cache entry of its
    owner still in place and fresh.  [u1] reads the list of meals and the
    range statistics, which fills both caches.  After [saveMeal] both entries
    are still there; after [updateMeal] the statistics entry is; after
    [saveMealFeedback], [toggleMealFavorite] and [duplicateMeal] the meals
    entry is.  The reads that follow within the cache duration answer what was
    cached before the mutation: after [saveMeal] the statistics count four
    meals and the list has four, where the table holds five. *)
Theorem mutations_keep_owner_entries :
  let toast := [("name", VStr "toast"); ("calories", VNum 80)] in
  let statsK := statsKey "u1" "2024-01-15" "2024-01-16" in
  let mealsK := mealsKey "u1" 0 100 in
  let later := evening + 1000 in
  exists list s st0,
    getUserMeals evening "u1" 0 100 freshState = Ok (list, st0)
    /\ getRangeStatistics evening "u1" "2024-01-15" "2024-01-16" st0
       = Ok (RangeData s, afterReads)
    /\ length list = 4%nat /\ totalMeals s = 4
    /\ (exists r st',
          saveMeal later "u1" toast None afterReads = Ok (r, st')
          /\ cached (later + 1000) (userStatsCache st') statsK
             = Some (RangeData s)
          /\ cached (later + 1000) (mealsCache st') mealsK = Some list
          /\ getRangeStatistics (later + 1000) "u1" "2024-01-15" "2024-01-16"
               st' = Ok (RangeData s, st')
          /\ getUserMeals (later + 1000) "u1" 0 100 st' = Ok (list, st')
          /\ length (mealsBetween (db st') "u1" monday
                       (monday + 2 * Date.msPerDay - 1)) = 5%nat)
    /\ (exists r st',
          updateMeal soup later "u1" "1" "less salt" None afterReads
          = Ok (r, st')
          /\ cached (later + 1000) (userStatsCache st') statsK
             = Some (RangeData s))
    /\ (exists r st',
          saveMealFeedback later "u1" "1" (VObj [("tasteRating", VNum 5)])
            afterReads = Ok (r, st')
          /\ cached (later + 1000) (mealsCache st') mealsK = Some list)
    /\ (exists r st',
          toggleMealFavorite later "u1" "1" afterReads = Ok (r, st')
          /\ cached (later + 1000) (mealsCache st') mealsK = Some list)
    /\ (exists r st',
          duplicateMeal later "u1" "1" (Some "2024-01-16") afterReads
          = Ok (r, st')
          /\ cached (later + 1000) (mealsCache st') mealsK = Some list).
Proof.
  intros toast statsK mealsK later.
  repeat eexists.
  all: vm_compute; reflexivity.
Qed.



(** C10, as amended: [toggleMealFavorite] on an owned meal returns the
    negation of the truthiness of the stored [isFavorite] flag (a missing
    flag, [null], [false], [0] and the empty string read as false, every other
    value as true) and stores exactly that boolean; the other
    additives keys, the time stamp apart, are written back unchanged.  A second
    toggle returns the truthiness of the original flag and stores it, which for
    a flag that was a boolean is the original value. *)
Theorem toggle_negates_truthiness (now now' : Z) (owner id : string)
    (st : State) (n : Z) (meal : Meal) :
  Num.parseInt id = Some n ->
  findFirst (db st) n owner = Some meal ->
  let additives := asJsonObject (additives_json meal) in
  let flag := get additives "isFavorite" in
  exists st1 additives1 st2 additives2,
    toggleMealFavorite now owner id st = Ok (id, negb (truthy flag), st1)
    /\ findFirst (db st1) n owner
       = Some (with_additives (VObj additives1) meal)
    /\ get additives1 "isFavorite" = VBool (negb (truthy flag))
    /\ (forall k, k <> "isFavorite" -> k <> "favoriteUpdatedAt" ->
                  get additives1 k = get additives k)
    /\ toggleMealFavorite now' owner id st1 = Ok (id, truthy flag, st2)
    /\ findFirst (db st2) n owner
       = Some (with_additives (VObj additives2) meal)
    /\ get additives2 "isFavorite" = VBool (truthy flag)
    /\ (forall b, flag = VBool b -> get additives2 "isFavorite" = flag).
Proof.
  intros Hid Hfind additives flag.
  set (additives1 :=
         set "favoriteUpdatedAt" (VStr (Date.toISOString now))
           (set "isFavorite" (VBool (negb (truthy flag))) additives)).
  set (meal1 := with_additives (VObj additives1) meal).
  set (st1 := clearUserCaches owner
                (with_db (update (meal_id meal)
                            (with_additives (VObj additives1)) (db st)) st)).
  assert (findFirst (db st1) n owner = Some meal1) as Hfind1.
  { simpl. apply findFirst_update; [|assumption].
    intros m. apply with_additives_keeps. }
  assert (get additives1 "isFavorite" = VBool (negb (truthy flag))) as Hflag1.
  { unfold additives1. rewrite JsFacts.get_set_ne by discriminate.
    apply JsFacts.get_set_eq. }
  set (additives2 :=
         set "favoriteUpdatedAt" (VStr (Date.toISOString now'))
           (set "isFavorite" (VBool (truthy flag)) additives1)).
  set (st2 := clearUserCaches owner
                (with_db (update (meal_id meal1)
                            (with_additives (VObj additives2)) (db st1)) st1)).
  assert (get additives2 "isFavorite" = VBool (truthy flag)) as Hflag2.
  { unfold additives2. rewrite JsFacts.get_set_ne by discriminate.
    apply JsFacts.get_set_eq. }
  exists st1, additives1, st2, additives2.
  split.
  { unfold toggleMealFavorite. rewrite Hid, Hfind. reflexivity. }
  split; [exact Hfind1|]. split; [exact Hflag1|]. split.
  { intros k Hk Hk'. unfold additives1.
    rewrite !JsFacts.get_set_ne by assumption. reflexivity. }
  split.
  { unfold toggleMealFavorite. rewrite Hid, Hfind1.
    change (asJsonObject (additives_json meal1)) with additives1.
    rewrite Hflag1. simpl truthy. rewrite negb_involutive. reflexivity. }
  split.
  { change (with_additives (VObj additives2) meal)
      with (with_additives (VObj additives2) meal1).
    apply (findFirst_update (db st1) n owner meal1
             (with_additives (VObj additives2))); [|exact Hfind1].
    intros m. apply with_additives_keeps. }
  split; [exact Hflag2|].
  intros b Hb. rewrite Hflag2, Hb. reflexivity.
Qed.

Lemma toggle_negates_truthiness_witness :
  exists st1 st2,
    toggleMealFavorite 0 "u1" "1" freshState = Ok ("1", false, st1)
    /\ toggleMealFavorite 1 "u1" "1" st1 = Ok ("1", true, st2).
Proof.
  destruct (toggle_negates_truthiness 0 1 "u1" "1" freshState 1
              (sampleMeal 1 "u1" (monday + 8 * 3600000) (Some 100%Q)
                 (Some (5 # 2))
                 (VObj [ ("isFavorite", VBool true);
                         ("feedback", VObj [ ("tasteRating", VNum 3);
                                             ("satietyRating", VNum 2) ]) ]))
              eq_refl eq_refl)
    as (st1 & a1 & st2 & a2 & H1 & _ & _ & _ & H2 & _).
  exists st1, st2. split; [exact H1|exact H2].
Defined.

(** C10, as stated, fails: a flag that is not a boolean but is truthy counts
    as set.  A meal saved with [isFavorite: 1] in its additives, and the
    stored meal whose flag is the string "yes", are toggled to [false], where
    reading a non-boolean flag as false would give [true]. *)
Lemma truthy_flag_counts_as_set :
  let flagged :=
    [ ("name", VStr "toast");
      ("additives_json", VObj [("isFavorite", VNum 1)]) ] in
  (exists r st1 st2,
     saveMeal 0 "u1" flagged None freshState = Ok (r, st1)
     /\ get r "id" = VStr "6"
     /\ toggleMealFavorite 1 "u1" "6" st1 = Ok ("6", false, st2))
  /\ negb (boolean_flag (VNum 1)) = true
  /\ (exists meal st',
        findFirst (db freshState) 3 "u1" = Some meal
        /\ get (asJsonObject (additives_json meal)) "isFavorite" = VStr "yes"
        /\ toggleMealFavorite 1 "u1" "3" freshState = Ok ("3", false, st'))
  /\ negb (boolean_flag (VStr "yes")) = true.
Proof.
  intros flagged.
  repeat split.
  all: repeat eexists.
  all: try (vm_compute; reflexivity).
Qed.

End MutationFacts.

(** ** Range statistics *)

Module StatsFacts.
Import Js Server.

Lemma fold_left_cons {A B : Type} (f : A -> B -> A) (x : B) (l : list B)
    (a : A) :
  fold_left f (x :: l) a = fold_left f l (f a x).
Proof. reflexivity. Qed.

Lemma numericFields_complete (f : NumericField) : In f numericFields.
Proof. destruct f; simpl; tauto. Qed.


(** *** The totals object *)













(** *** The query *)

Lemma insert_by_created_at_perm (m : Meal) (l : list Meal) :
  insert_by_created_at m l ≡ₚ m :: l.
Proof.
  induction l as [|x l IH]; simpl; [reflexivity|].
  destruct (created_at m <=? created_at x); [reflexivity|].
  rewrite IH. apply Permutation_swap.
Qed.

Lemma sort_by_created_at_perm (l : list Meal) : sort_by_created_at l ≡ₚ l.
Proof.
  induction l as [|x l IH]; simpl; [reflexivity|].
  rewrite insert_by_created_at_perm, IH. reflexivity.
Qed.

(** The query answers the meals of the owner in the closed interval. *)
Lemma findManyInRange_perm (rows : list Meal) (owner : string) (a b : Z) :
  findManyInRange rows owner a b ≡ₚ mealsBetween rows owner a b.
Proof.
  unfold findManyInRange, mealsBetween.
  apply Permutation_map, sort_by_created_at_perm.
Qed.


(** *** The days *)




(** *** The breakdown *)

Lemma pushed_id (m : MealSummary) : pushed m = m.
Proof. destruct m. reflexivity. Qed.

Lemma breakdownMeals_cons (d : DaySummary) (days : list DaySummary) :
  breakdownMeals (d :: days) = (meals d ++ breakdownMeals days)%list.
Proof. reflexivity. Qed.

Lemma breakdownMeals_perm (l l' : list DaySummary) :
  l ≡ₚ l' -> breakdownMeals l ≡ₚ breakdownMeals l'.
Proof.
  induction 1 as [|d l l' _ IH|d d' l|l1 l2 l3 _ IH1 _ IH2].
  - reflexivity.
  - rewrite !breakdownMeals_cons, IH. reflexivity.
  - rewrite !breakdownMeals_cons, !app_assoc.
    rewrite (Permutation_app_comm (meals d') (meals d)). reflexivity.
  - etransitivity; eassumption.
Qed.

Lemma add_to_day_meals (day : string) (e : MealSummary)
    (acc : list DaySummary) :
  breakdownMeals (add_to_day day e acc) ≡ₚ (breakdownMeals acc ++ [e])%list.
Proof.
  induction acc as [|d acc IH]; simpl; [reflexivity|].
  destruct (String.eqb (date d) day).
  - rewrite !breakdownMeals_cons. simpl meals.
    rewrite <- !app_assoc.
    rewrite (Permutation_app_comm [e] (breakdownMeals acc)). reflexivity.
  - rewrite !breakdownMeals_cons, IH, app_assoc. reflexivity.
Qed.

Lemma add_to_day_dates (day : string) (e : MealSummary)
    (acc : list DaySummary) (x : string) :
  x ∈ List.map date (add_to_day day e acc)
  <-> x = day \/ x ∈ List.map date acc.
Proof.
  induction acc as [|d acc IH]; simpl.
  - rewrite elem_of_cons, elem_of_nil. tauto.
  - destruct (String.eqb (date d) day) eqn:E; simpl.
    + apply String.eqb_eq in E. rewrite !elem_of_cons. subst day. tauto.
    + rewrite !elem_of_cons, IH. tauto.
Qed.

Lemma add_to_day_grouped (e : MealSummary) (acc : list DaySummary) :
  groupedByDay acc -> groupedByDay (add_to_day (dayOf e) e acc).
Proof.
  unfold groupedByDay.
  induction acc as [|d acc IH]; intros [Hnd Hall]; simpl.
  - split.
    + apply NoDup_singleton.
    + intros d' Hd'. apply list_elem_of_singleton in Hd' as ->. simpl.
      split; [discriminate|].
      intros m Hm. apply list_elem_of_singleton in Hm as ->. reflexivity.
  - simpl in Hnd. apply NoDup_cons in Hnd as [Hd Hnd].
    destruct (String.eqb (date d) (dayOf e)) eqn:E; simpl.
    + apply String.eqb_eq in E. split.
      * apply NoDup_cons. split; assumption.
      * intros d' Hd'. apply elem_of_cons in Hd' as [->|Hd'].
        -- simpl. split; [destruct (meals d); discriminate|].
           intros m Hm. apply elem_of_app in Hm as [Hm|Hm].
           ++ apply (Hall d); [by left|assumption].
           ++ apply list_elem_of_singleton in Hm as ->. symmetry. assumption.
        -- apply Hall. by right.
    + destruct IH as [Hnd' Hall'].
      { split; [assumption|]. intros d' Hd'. apply Hall. by right. }
      split.
      * apply NoDup_cons. split; [|assumption].
        rewrite add_to_day_dates. intros [Heq|Hin]; [|contradiction].
        rewrite Heq, String.eqb_refl in E. discriminate.
      * intros d' Hd'. apply elem_of_cons in Hd' as [->|Hd'].
        -- apply Hall. by left.
        -- apply Hall'. assumption.
Qed.

Lemma dailyData_from (ms : list MealSummary) (acc : list DaySummary) :
  groupedByDay acc ->
  let days :=
    fold_left (fun acc meal => add_to_day (dayOf meal) (pushed meal) acc)
              ms acc in
  groupedByDay days
  /\ breakdownMeals days ≡ₚ (breakdownMeals acc ++ ms)%list.
Proof.
  revert acc. induction ms as [|m ms IH]; intros acc Hacc.
  - simpl. split; [assumption|]. rewrite app_nil_r. reflexivity.
  - rewrite fold_left_cons, pushed_id.
    destruct (IH (add_to_day (dayOf m) m acc)) as [Hg Hp].
    { apply add_to_day_grouped. assumption. }
    split; [exact Hg|].
    rewrite Hp, add_to_day_meals, <- app_assoc. reflexivity.
Qed.

Lemma dailyData_grouped (ms : list MealSummary) :
  groupedByDay (dailyData ms) /\ breakdownMeals (dailyData ms) ≡ₚ ms.
Proof.
  apply (dailyData_from ms []).
  split; [apply NoDup_nil_2|]. intros d Hd. by apply elem_of_nil in Hd.
Qed.

Lemma insert_day_perm (d : DaySummary) (l : list DaySummary) :
  insert_day d l ≡ₚ d :: l.
Proof.
  induction l as [|x l IH]; simpl; [reflexivity|].
  destruct (String.compare (date d) (date x)); try reflexivity.
  rewrite IH. apply Permutation_swap.
Qed.

Lemma sort_days_perm (l : list DaySummary) : sort_days l ≡ₚ l.
Proof.
  induction l as [|x l IH]; simpl; [reflexivity|].
  rewrite insert_day_perm, IH. reflexivity.
Qed.

Lemma groupedByDay_perm (l l' : list DaySummary) :
  l ≡ₚ l' -> groupedByDay l -> groupedByDay l'.
Proof.
  intros Hp [Hnd Hall]. split.
  - rewrite <- (Permutation_map date Hp). assumption.
  - intros d Hd. apply Hall. rewrite Hp. assumption.
Qed.

(** The breakdown of a query result holds exactly its meals, grouped by
    day. *)
Lemma sorted_breakdown_partitions (ms : list MealSummary) :
  groupedByDay (sort_days (dailyData ms))
  /\ breakdownMeals (sort_days (dailyData ms)) ≡ₚ ms.
Proof.
  destruct (dailyData_grouped ms) as [Hg Hp]. split.
  - apply (groupedByDay_perm (dailyData ms)); [|assumption].
    symmetry. apply sort_days_perm.
  - rewrite (breakdownMeals_perm _ _ (sort_days_perm (dailyData ms))).
    assumption.
Qed.

(** *** The statistics of a range *)



Lemma getRangeStatistics_miss (now : Z) (owner startDate endDate : string)
    (st : State) (a b : Z) :
  cached now (userStatsCache st) (statsKey owner startDate endDate) = None ->
  Date.parse (startDate ++ "T00:00:00.000Z") = Some a ->
  Date.parse (endDate ++ "T23:59:59.999Z") = Some b ->
  getRangeStatistics now owner startDate endDate st
  = Ok (RangeData (computed (db st) owner startDate endDate a b),
        with_stats (statsKey owner startDate endDate) now
          (computed (db st) owner startDate endDate a b) st).
Proof.
  intros Hmiss Ha Hb. unfold getRangeStatistics, computed.
  rewrite Hmiss, Ha, Hb.
  destruct (findManyInRange (db st) owner a b); reflexivity.
Qed.













End StatsFacts.

(** * Further properties *)

(** ** The resolver, further *)

Module ResolverFacts.
Import Js Client.

Lemma well_typed_typed (d : jsobj) :
  Shape.well_typed d = true -> Shape.typed d.
Proof.
  unfold Shape.well_typed, Shape.typed.
  induction d as [|[k' v] d IH]; simpl get; intros H k s Hget;
    [discriminate|].
  cbn [forallb] in H. apply andb_true_iff in H as [Hv Hd].
  destruct (String.eqb k' k) eqn:E; [|eapply IH; eassumption].
  apply String.eqb_eq in E. subst k' v. cbn [snd fst] in Hv.
  apply existsb_exists in Hv as [x [Hx Hk]].
  apply String.eqb_eq in Hk. subst x. assumption.
Qed.

(** A typed record holds no text under any spelling of a field of the
    screen. *)
Lemma typed_reads_no_text (d : jsobj) (field : string) :
  Shape.typed d -> In field Shape.screenFields ->
  Shape.reads_no_text d field.
Proof.
  intros Hd Hfield v s Hv Hget. apply Hd in Hget.
  unfold Shape.screenFields in Hfield. simpl in Hfield.
  repeat (destruct Hfield as [<-|Hfield]); try contradiction;
    vm_compute in Hv;
    repeat (destruct Hv as [<-|Hv]); try contradiction;
    vm_compute in Hget; intuition discriminate.
Qed.



Lemma Math_round_positive (q : Q) : (0 < q)%Q -> 0 <= Num.Math_round q.
Proof.
  intros Hq. unfold Num.Math_round.
  change 0 with (Qfloor 0%Q). apply Qfloor_resp_le. lra.
Qed.

Lemma candidate_count (v : jsval) (r : Q) :
  (forall s, v <> VStr s) ->
  candidate v = Some r -> exists z, 0 <= z /\ r = inject_Z z.
Proof.
  intros Hv. destruct v as [| |b|q|s|l|o]; simpl; try discriminate.
  - destruct (Num.ltb 0 q) eqn:E; [|discriminate]. intros [= <-].
    apply NumFacts.ltb_true in E. eexists. split; [|reflexivity].
    apply Math_round_positive. assumption.
  - exfalso. apply (Hv s). reflexivity.
Qed.

Lemma first_candidate_count (d : jsobj) (vs : list string) :
  (forall v s, In v vs -> get d v <> VStr s) ->
  exists z, 0 <= z /\ first_candidate d vs = inject_Z z.
Proof.
  induction vs as [|v vs IH]; intros Hd; simpl.
  - exists 0. split; [lia|reflexivity].
  - destruct (candidate (get d v)) as [r|] eqn:E.
    + eapply candidate_count; [|eassumption].
      intros s. apply Hd. left. reflexivity.
    + apply IH. intros w s Hw. apply Hd. right. assumption.
Qed.

Lemma resolved_count (d : option jsobj) (field : string) :
  (forall o, d = Some o -> Shape.reads_no_text o field) ->
  exists z, 0 <= z /\ getNutritionValue d field = inject_Z z.
Proof.
  intros Hd. destruct d as [o|]; unfold getNutritionValue.
  - apply first_candidate_count. apply Hd. reflexivity.
  - exists 0. split; [lia|reflexivity].
Qed.




(** X2: when no spelling of the field that the resolver tries holds text,
    what it answers is an integer that is not negative: a negative or
    fractional stored number never comes out of it. *)
Theorem resolved_number_is_a_count (d : option jsobj) (field : string) :
  (forall o, d = Some o -> Shape.reads_no_text o field) ->
  exists z, 0 <= z /\ getNutritionValue d field = inject_Z z.
Proof. apply resolved_count. Qed.

Lemma resolved_number_is_a_count_witness :
  exists z, 0 <= z
    /\ getNutritionValue
         (Some [ ("name", VStr "bran"); ("fiber", VNum (-3));
                 ("fiber_g", VNum (7 # 4)) ])
         "fiber_g" = inject_Z z.
Proof.
  apply (resolved_number_is_a_count
           (Some [ ("name", VStr "bran"); ("fiber", VNum (-3));
                   ("fiber_g", VNum (7 # 4)) ])
           "fiber_g").
  intros o [= <-]. apply typed_reads_no_text.
  - apply well_typed_typed. reflexivity.
  - vm_compute. tauto.
Defined.

(** X3: a positive number smaller than one half under the exact name
    resolves to 0 and ends the resolution there: an alias that holds a larger
    value is not looked at. *)
Theorem small_value_resolves_to_zero (d : jsobj) (field : string) (q : Q) :
  get d field = VNum q -> (0 < q)%Q -> (q < 1 # 2)%Q ->
  getNutritionValue (Some d) field = 0%Q.
Proof.
  intros Hget Hq Hsmall. unfold getNutritionValue, variations. simpl.
  rewrite Hget. simpl. rewrite (proj2 (NumFacts.ltb_true 0 q) Hq).
  assert (Num.Math_round q = 0) as ->; [|reflexivity].
  unfold Num.Math_round.
  pose proof (Qfloor_le (q + (1 # 2))) as Hle.
  pose proof (Qlt_floor (q + (1 # 2))) as Hlt.
  rewrite inject_Z_plus in Hlt. change (inject_Z 1) with 1%Q in Hlt.
  assert (inject_Z (Qfloor (q + (1 # 2))) < 1)%Q as H1 by lra.
  assert (-1 < inject_Z (Qfloor (q + (1 # 2))))%Q as H2 by lra.
  rewrite <- (Zlt_Qlt _ 1) in H1. change (-1)%Q with (inject_Z (-1)) in H2.
  rewrite <- Zlt_Qlt in H2. lia.
Qed.

Lemma small_value_resolves_to_zero_witness :
  getNutritionValue
    (Some [("protein_g", VNum (2 # 5)); ("protein", VNum 7)]) "protein_g"
  = 0%Q.
Proof.
  apply (small_value_resolves_to_zero
           [("protein_g", VNum (2 # 5)); ("protein", VNum 7)]
           "protein_g" (2 # 5)); reflexivity.
Defined.

End ResolverFacts.

(** ** The totals of the screen, further *)

Module TotalsFacts.
Import Js Client.

Lemma count_zero : Shape.count 0%Q.
Proof. exists 0. split; [lia|reflexivity]. Qed.

Lemma count_resolved (d : jsobj) (field : string) :
  Shape.typed d -> In field Shape.screenFields ->
  Shape.count (getNutritionValue (Some d) field).
Proof.
  intros Hd Hfield.
  destruct (ResolverFacts.resolved_count (Some d) field) as [z [Hz ->]].
  - intros o [= <-]. apply ResolverFacts.typed_reads_no_text; assumption.
  - exists z. split; [assumption|reflexivity].
Qed.

Lemma count_nor (a b : Q) :
  Shape.count a -> Shape.count b -> Shape.count (nor a b).
Proof. intros Ha Hb. unfold nor. destruct (Num.is_zero a); assumption. Qed.

Lemma count_plus (a b : Q) :
  Shape.count a -> Shape.count b -> Shape.count (a + b)%Q.
Proof.
  intros [x [Hx Ha]] [y [Hy Hb]]. exists (x + y). split; [lia|].
  rewrite Ha, Hb, inject_Z_plus. reflexivity.
Qed.

Lemma count_sumOver (f : jsobj -> Q) (l : list jsobj) :
  (forall i, In i l -> Shape.count (f i)) -> Shape.count (sumOver f l).
Proof.
  unfold sumOver. generalize count_zero. generalize 0%Q as acc.
  induction l as [|i l IH]; intros acc Hacc Hl; [assumption|].
  rewrite StatsFacts.fold_left_cons. apply IH.
  - apply count_plus; [assumption|]. apply Hl. left. reflexivity.
  - intros j Hj. apply Hl. right. assumption.
Qed.

Lemma count_mealValue (ad : option AnalysisData) (c a : string) :
  (forall d, ad = Some d -> Shape.typed (fields d)) ->
  In c Shape.screenFields -> In a Shape.screenFields ->
  Shape.count (mealValue ad c a).
Proof.
  intros Had Hc Ha. destruct ad as [d|]; simpl; [|apply count_zero].
  repeat apply count_nor; try apply count_zero;
    apply count_resolved; try assumption; apply Had; reflexivity.
Qed.

Lemma count_ingredientValue (c a : string) (i : jsobj) :
  Shape.typed i -> In c Shape.screenFields -> In a Shape.screenFields ->
  Shape.count (ingredientValue c a i).
Proof.
  intros Hi Hc Ha. unfold ingredientValue.
  apply count_nor; apply count_resolved; assumption.
Qed.

Ltac screen_field := vm_compute; tauto.

(** X4: when the analysis and the ingredients hold text in their text
    fields only, the six totals that are resolved (protein, carbs, fat, fiber,
    sugar, sodium) are non-negative integers: a negative or fractional stored
    value never reaches them. *)
Theorem resolved_totals_are_counts (st : ScreenState) (n : Nutrient) :
  n <> Calories ->
  (forall i, In i (currentIngredients st) -> Shape.typed i) ->
  (forall d, analysisData st = Some d -> Shape.typed (fields d)) ->
  exists q,
    reported n (calculateTotalNutrition st) = VNum q /\ Shape.count q.
Proof.
  intros Hn Hing Had. unfold calculateTotalNutrition.
  destruct (currentIngredients st) as [|i l] eqn:Hcur;
    destruct (analysisData st) as [ad|] eqn:Hdata; destruct n;
    try congruence;
    cbv beta iota zeta
        delta [reported calories protein carbs fat fiber sugar sodium];
    eexists; (split; [reflexivity|]);
    try apply count_zero;
    try (apply count_mealValue; [assumption|screen_field|screen_field]);
    apply count_nor;
    try (apply count_mealValue; [assumption|screen_field|screen_field]);
    apply count_sumOver; intros j Hj;
    (apply count_ingredientValue; [apply Hing, Hj|screen_field|screen_field]).
Qed.

Lemma resolved_totals_are_counts_witness :
  exists q,
    reported Protein
      (calculateTotalNutrition
         {| editedIngredients :=
              [ [("name", VStr "rice"); ("protein_g", VNum (-4))];
                [("name", VStr "egg"); ("protein", VNum (13 # 2))] ];
            analysisData := None |}) = VNum q
    /\ Shape.count q.
Proof.
  apply (resolved_totals_are_counts
           {| editedIngredients :=
                [ [("name", VStr "rice"); ("protein_g", VNum (-4))];
                  [("name", VStr "egg"); ("protein", VNum (13 # 2))] ];
              analysisData := None |} Protein).
  - discriminate.
  - intros i [<-|[<-|[]]]; apply ResolverFacts.well_typed_typed;
      reflexivity.
  - discriminate.
Defined.

End TotalsFacts.

(** ** The ingredient editor *)

Module EditorFacts.
Import Js Editor.







Lemma filter_out_items (l : list jsobj) (i index : Z) :
  filter_out i index (List.map Item l)
  = List.map Item
      (if (i <=? index) && (index <? i + Z.of_nat (length l))
       then (take (Z.to_nat (index - i)) l
             ++ drop (S (Z.to_nat (index - i))) l)%list
       else l).
Proof.
  revert i. induction l as [|x l IH]; intros i.
  - cbn [List.map filter_out length].
    destruct ((i <=? index) && (index <? i + Z.of_nat 0)); [|reflexivity].
    destruct (Z.to_nat (index - i)); reflexivity.
  - cbn [List.map filter_out]. rewrite IH.
    destruct (i =? index) eqn:E.
    + apply Z.eqb_eq in E. subst index.
      rewrite (proj2 (Z.leb_gt (i + 1) i)) by lia.
      rewrite (proj2 (Z.leb_le i i)) by lia.
      rewrite (proj2 (Z.ltb_lt i (i + Z.of_nat (length (x :: l)))))
        by (simpl length; lia).
      rewrite Z.sub_diag. reflexivity.
    + apply Z.eqb_neq in E.
      destruct ((i + 1 <=? index)
                && (index <? i + 1 + Z.of_nat (length l))) eqn:C.
      * apply andb_true_iff in C as [C1 C2].
        apply Z.leb_le in C1. apply Z.ltb_lt in C2.
        rewrite (proj2 (Z.leb_le i index)) by lia.
        rewrite (proj2 (Z.ltb_lt index (i + Z.of_nat (length (x :: l)))))
          by (simpl length; lia).
        replace (Z.to_nat (index - i)) with (S (Z.to_nat (index - (i + 1))))
          by lia.
        reflexivity.
      * assert ((i <=? index)
                && (index <? i + Z.of_nat (length (x :: l))) = false) as ->.
        { apply andb_false_iff in C as [C|C].
          - apply Z.leb_gt in C. apply andb_false_iff. left.
            apply Z.leb_gt. lia.
          - apply Z.ltb_ge in C. apply andb_false_iff. right.
            apply Z.ltb_ge. simpl length. lia. }
        reflexivity.
Qed.

(** X7: removing the ingredient at an index of the list drops that
    ingredient and keeps the others in their order; an index outside the list
    removes nothing.  The ingredient that is being edited is not touched. *)
Theorem removal_drops_one_ingredient (l : list jsobj) (index : Z)
    (st : EditorState) :
  editedIngredients st = List.map Item l ->
  (0 <= index < Z.of_nat (length l) ->
   editedIngredients (handleRemoveIngredient index st)
   = List.map Item (take (Z.to_nat index) l
                    ++ drop (S (Z.to_nat index)) l)%list
   /\ length (editedIngredients (handleRemoveIngredient index st))
      = (length l - 1)%nat)
  /\ (~ 0 <= index < Z.of_nat (length l) ->
      editedIngredients (handleRemoveIngredient index st) = List.map Item l)
  /\ editingIngredient (handleRemoveIngredient index st)
     = editingIngredient st
  /\ editingIndex (handleRemoveIngredient index st) = editingIndex st.
Proof.
  intros Hl. unfold handleRemoveIngredient.
  cbn [editedIngredients editingIngredient editingIndex].
  rewrite Hl, filter_out_items, Z.sub_0_r, Z.add_0_l.
  split; [|split; [|split; reflexivity]].
  - intros [H0 H1].
    rewrite (proj2 (Z.leb_le 0 index)), (proj2 (Z.ltb_lt _ _)) by assumption.
    cbn [andb]. split; [reflexivity|].
    rewrite length_map, length_app, length_take, length_drop. lia.
  - intros Hout.
    destruct ((0 <=? index) && (index <? Z.of_nat (length l))) eqn:C;
      [|reflexivity].
    exfalso. apply Hout. apply andb_true_iff in C as [C1 C2].
    apply Z.leb_le in C1. apply Z.ltb_lt in C2. lia.
Qed.

Lemma removal_drops_one_ingredient_witness :
  editedIngredients
    (handleRemoveIngredient 1
       {| editedIngredients :=
            [ Item [("name", VStr "rice")]; Item [("name", VStr "egg")];
              Item [("name", VStr "oil")] ];
          editingIngredient := None;
          editingIndex := -1;
          showEditModal := false |})
  = [ Item [("name", VStr "rice")]; Item [("name", VStr "oil")] ].
Proof.
  apply (proj1 (removal_drops_one_ingredient
                  [ [("name", VStr "rice")]; [("name", VStr "egg")];
                    [("name", VStr "oil")] ] 1
                  {| editedIngredients :=
                       [ Item [("name", VStr "rice")];
                         Item [("name", VStr "egg")];
                         Item [("name", VStr "oil")] ];
                     editingIngredient := None;
                     editingIndex := -1;
                     showEditModal := false |} eq_refl)).
  simpl. lia.
Defined.








End EditorFacts.

(** ** The range statistics, further *)

Module RangeFacts.
Import Js Server.

Lemma sort_by_created_at_nil (l : list Meal) :
  l = [] -> sort_by_created_at l = [].
Proof. intros ->. reflexivity. Qed.

Lemma filter_nil_all {A : Type} (p : A -> bool) (l : list A) :
  (forall x, In x l -> p x = false) -> List.filter p l = [].
Proof.
  induction l as [|x l IH]; intros H; [reflexivity|].
  simpl. rewrite (H x) by (left; reflexivity).
  apply IH. intros y Hy. apply H. right. exact Hy.
Qed.

Lemma cached_with_stats (key : string) (now : Z) (s : RangeStatistics)
    (st : State) :
  cached now (userStatsCache (with_stats key now s st)) key
  = Some (RangeData s).
Proof.
  unfold cached, with_stats. simpl. rewrite lookup_insert_eq. simpl.
  rewrite Z.sub_diag. reflexivity.
Qed.

Lemma read_zeros (l : list NumericField) (f : NumericField) :
  read (List.map (fun g => (g, 0%Q)) l) f = 0%Q.
Proof.
  induction l as [|g l IH]; [reflexivity|].
  simpl. destruct (decide (g = f)); [reflexivity|exact IH].
Qed.

(** X9: a range in which the owner has no meal, and so every range that
    ends before it starts, is answered with zero days, zero meals, an empty
    breakdown, zero for every total and average and no date range; the
    answer is cached like any other, and the table is left as it is. *)
Theorem empty_range_reports_zeros (now : Z)
    (owner startDate endDate : string) (st : State) (a b : Z) :
  cached now (userStatsCache st) (statsKey owner startDate endDate) = None ->
  Date.parse (startDate ++ "T00:00:00.000Z") = Some a ->
  Date.parse (endDate ++ "T23:59:59.999Z") = Some b ->
  (b < a
   \/ forall m, In m (db st) -> user_id m = owner ->
        created_at m < a \/ b < created_at m) ->
  exists s st',
    getRangeStatistics now owner startDate endDate st = Ok (RangeData s, st')
    /\ totalDays s = 0 /\ totalMeals s = 0 /\ dailyBreakdown s = []
    /\ dateRange s = None
    /\ (forall f, read (total s) f = 0%Q /\ read (average s) f = 0%Q)
    /\ cached now (userStatsCache st') (statsKey owner startDate endDate)
       = Some (RangeData s)
    /\ db st' = db st.
Proof.
  intros Hmiss Ha Hb Hout.
  assert (List.filter (in_range owner a b) (db st) = []) as Hnone.
  { apply filter_nil_all. intros m Hm. unfold in_range.
    destruct (String.eqb (user_id m) owner) eqn:Eo; [|reflexivity].
    apply String.eqb_eq in Eo. simpl.
    destruct (a <=? created_at m) eqn:E1; [|reflexivity].
    destruct (created_at m <=? b) eqn:E2; [|reflexivity].
    apply Z.leb_le in E1, E2. exfalso.
    destruct Hout as [Hrev|Hout]; [lia|].
    destruct (Hout m Hm Eo); lia. }
  exists emptyResult. eexists. split.
  { rewrite (StatsFacts.getRangeStatistics_miss now owner startDate endDate
               st a b Hmiss Ha Hb).
    unfold computed, findManyInRange. rewrite Hnone. reflexivity. }
  repeat split; try reflexivity.
  - apply read_zeros.
  - apply read_zeros.
  - apply cached_with_stats.
Qed.

Lemma empty_range_reports_zeros_witness :
  exists s st',
    getRangeStatistics evening "u1" "2024-01-16" "2024-01-15" freshState
    = Ok (RangeData s, st')
    /\ totalDays s = 0 /\ totalMeals s = 0 /\ dailyBreakdown s = []
    /\ dateRange s = None
    /\ (forall f, read (total s) f = 0%Q /\ read (average s) f = 0%Q)
    /\ cached evening (userStatsCache st')
         (statsKey "u1" "2024-01-16" "2024-01-15")
       = Some (RangeData s)
    /\ db st' = db freshState.
Proof.
  apply (empty_range_reports_zeros evening "u1" "2024-01-16" "2024-01-15"
           freshState (monday + Date.msPerDay) (monday + Date.msPerDay - 1)).
  - reflexivity.
  - vm_compute. reflexivity.
  - vm_compute. reflexivity.
  - left. vm_compute. reflexivity.
Defined.



(** *** Order *)

Lemma insert_by_created_at_sorted (m : Meal) (l : list Meal) :
  StronglySorted (fun x y => created_at x <= created_at y) l ->
  StronglySorted (fun x y => created_at x <= created_at y)
    (insert_by_created_at m l).
Proof.
  induction l as [|x l IH]; intros Hs; simpl.
  - constructor; constructor.
  - apply StronglySorted_inv in Hs as [Hl Hx].
    destruct (created_at m <=? created_at x) eqn:E.
    + apply Z.leb_le in E. constructor.
      * constructor; assumption.
      * constructor; [exact E|].
        eapply Forall_impl; [exact Hx|]. simpl. intros y Hy. lia.
    + apply Z.leb_gt in E. constructor; [apply IH; assumption|].
      rewrite (StatsFacts.insert_by_created_at_perm m l).
      constructor; [lia|assumption].
Qed.

Lemma sort_by_created_at_sorted (l : list Meal) :
  StronglySorted (fun x y => created_at x <= created_at y)
    (sort_by_created_at l).
Proof.
  induction l as [|x l IH]; simpl; [constructor|].
  apply insert_by_created_at_sorted. exact IH.
Qed.

Lemma StronglySorted_map {A B : Type} (R : B -> B -> Prop) (f : A -> B)
    (l : list A) :
  StronglySorted (fun x y => R (f x) (f y)) l ->
  StronglySorted R (List.map f l).
Proof.
  induction 1 as [|x l _ IH Hx]; simpl; constructor; [assumption|].
  apply List.Forall_map. exact Hx.
Qed.

Lemma StronglySorted_filter {A : Type} (R : A -> A -> Prop) (p : A -> bool)
    (l : list A) :
  StronglySorted R l -> StronglySorted R (List.filter p l).
Proof.
  induction 1 as [|x l _ IH Hx]; simpl; [constructor|].
  destruct (p x); [|exact IH]. constructor; [exact IH|].
  apply List.Forall_forall. intros y Hy. apply filter_In in Hy as [Hy _].
  revert y Hy. apply List.Forall_forall. exact Hx.
Qed.

Lemma findManyInRange_sorted (rows : list Meal) (owner : string) (a b : Z) :
  StronglySorted (fun x y => sum_created_at x <= sum_created_at y)
    (findManyInRange rows owner a b).
Proof.
  unfold findManyInRange. apply StronglySorted_map. simpl.
  apply sort_by_created_at_sorted.
Qed.

(** *** The meals of a day *)

Lemma filter_app_one {A : Type} (p : A -> bool) (l : list A) (x : A) :
  List.filter p (l ++ [x])
  = (List.filter p l ++ (if p x then [x] else []))%list.
Proof. rewrite List.filter_app. reflexivity. Qed.

Lemma add_to_day_lists (e : MealSummary) (acc : list DaySummary)
    (p : list MealSummary) :
  NoDup (List.map date acc) ->
  (forall d, d ∈ acc ->
     meals d = List.filter (fun m => String.eqb (dayOf m) (date d)) p) ->
  ((forall d, d ∈ acc -> date d <> dayOf e) ->
   List.filter (fun m => String.eqb (dayOf m) (dayOf e)) p = []) ->
  forall d, d ∈ add_to_day (dayOf e) e acc ->
    meals d
    = List.filter (fun m => String.eqb (dayOf m) (date d)) (p ++ [e]).
Proof.
  induction acc as [|x acc IH]; intros Hnd Hlists Hnew d Hd; simpl in Hd.
  - apply list_elem_of_singleton in Hd as ->. simpl.
    rewrite filter_app_one, String.eqb_refl, Hnew; [reflexivity|].
    intros d Hd. by apply elem_of_nil in Hd.
  - simpl in Hnd. apply NoDup_cons in Hnd as [Hx Hnd].
    destruct (String.eqb (date x) (dayOf e)) eqn:E.
    + apply String.eqb_eq in E.
      apply elem_of_cons in Hd as [->|Hd]; simpl; rewrite filter_app_one.
      * rewrite <- E, String.eqb_refl, <- Hlists by (by left). reflexivity.
      * assert (String.eqb (dayOf e) (date d) = false) as ->.
        { apply String.eqb_neq. intros Heq. apply Hx.
          rewrite E, Heq. apply list_elem_of_fmap. by exists d. }
        rewrite app_nil_r. apply Hlists. by right.
    + apply String.eqb_neq in E.
      apply elem_of_cons in Hd as [->|Hd].
      * rewrite filter_app_one.
        assert (String.eqb (dayOf e) (date x) = false) as ->
          by (apply String.eqb_neq; congruence).
        rewrite app_nil_r. apply Hlists. by left.
      * apply IH; try assumption.
        -- intros d' Hd'. apply Hlists. by right.
        -- intros Hno. apply Hnew. intros d' Hd'.
           apply elem_of_cons in Hd' as [->|Hd']; [exact E|by apply Hno].
Qed.

Lemma dailyData_lists (ms p : list MealSummary) (acc : list DaySummary) :
  groupedByDay acc ->
  (forall d, d ∈ acc ->
     meals d = List.filter (fun m => String.eqb (dayOf m) (date d)) p) ->
  (forall m, In m p -> dayOf m ∈ List.map date acc) ->
  forall d,
    d ∈ fold_left (fun acc meal => add_to_day (dayOf meal) (pushed meal) acc)
          ms acc ->
    meals d
    = List.filter (fun m => String.eqb (dayOf m) (date d)) (p ++ ms).
Proof.
  revert p acc. induction ms as [|m ms IH]; intros p acc Hg Hlists Hcov d Hd.
  - simpl in Hd. rewrite app_nil_r. by apply Hlists.
  - rewrite StatsFacts.fold_left_cons, StatsFacts.pushed_id in Hd.
    change (p ++ m :: ms)%list with (p ++ [m] ++ ms)%list.
    rewrite app_assoc.
    apply (IH (p ++ [m])%list (add_to_day (dayOf m) m acc)).
    + by apply StatsFacts.add_to_day_grouped.
    + apply add_to_day_lists; [apply Hg|assumption|].
      intros Hno. apply filter_nil_all. intros x Hx.
      apply String.eqb_neq. intros Heq.
      apply Hcov in Hx. apply list_elem_of_fmap in Hx as [d' [Hd'1 Hd'2]].
      apply (Hno d' Hd'2). congruence.
    + intros x Hx. apply StatsFacts.add_to_day_dates.
      apply in_app_or in Hx as [Hx|[<-|[]]]; [right; by apply Hcov|by left].
    + exact Hd.
Qed.

Lemma dailyData_day (ms : list MealSummary) (d : DaySummary) :
  d ∈ sort_days (dailyData ms) ->
  meals d = List.filter (fun m => String.eqb (dayOf m) (date d)) ms.
Proof.
  rewrite (StatsFacts.sort_days_perm (dailyData ms)). intros Hd.
  apply (dailyData_lists ms [] []); try assumption.
  - split; [apply NoDup_nil_2|]. intros d' Hd'. by apply elem_of_nil in Hd'.
  - intros d' Hd'. by apply elem_of_nil in Hd'.
  - intros m [].
Qed.

(** X11: on a read that computes the statistics, the entry of a day lists
    the meals of the query that were created on that UTC day, all of them and
    in the order of the query, which is the order of their creation. *)
Theorem day_lists_its_meals_in_creation_order (now : Z)
    (owner startDate endDate : string) (st : State) (a b : Z) :
  cached now (userStatsCache st) (statsKey owner startDate endDate) = None ->
  Date.parse (startDate ++ "T00:00:00.000Z") = Some a ->
  Date.parse (endDate ++ "T23:59:59.999Z") = Some b ->
  exists s st',
    getRangeStatistics now owner startDate endDate st = Ok (RangeData s, st')
    /\ forall d, In d (dailyBreakdown s) ->
         meals d
         = List.filter (fun m => String.eqb (dayOf m) (date d))
             (findManyInRange (db st) owner a b)
         /\ StronglySorted
              (fun x y => sum_created_at x <= sum_created_at y) (meals d).
Proof.
  intros Hmiss Ha Hb. eexists. eexists. split.
  { apply StatsFacts.getRangeStatistics_miss; eassumption. }
  intros d Hd.
  assert (meals d
          = List.filter (fun m => String.eqb (dayOf m) (date d))
              (findManyInRange (db st) owner a b)) as Hmeals.
  { unfold computed in Hd.
    destruct (findManyInRange (db st) owner a b) as [|m ms] eqn:E;
      [destruct Hd|].
    apply dailyData_day. apply list_elem_of_In. exact Hd. }
  split; [exact Hmeals|].
  rewrite Hmeals. apply StronglySorted_filter, findManyInRange_sorted.
Qed.

Lemma day_lists_its_meals_in_creation_order_witness :
  exists s st',
    getRangeStatistics evening "u1" "2024-01-15" "2024-01-16" freshState
    = Ok (RangeData s, st')
    /\ forall d, In d (dailyBreakdown s) ->
         meals d
         = List.filter (fun m => String.eqb (dayOf m) (date d))
             (findManyInRange (db freshState) "u1" monday
                (monday + 2 * Date.msPerDay - 1))
         /\ StronglySorted
              (fun x y => sum_created_at x <= sum_created_at y) (meals d).
Proof.
  apply (day_lists_its_meals_in_creation_order evening "u1" "2024-01-15"
           "2024-01-16" freshState monday (monday + 2 * Date.msPerDay - 1)).
  - reflexivity.
  - vm_compute. reflexivity.
  - vm_compute. reflexivity.
Defined.

(** *** The order of the days *)

Lemma ascii_compare_refl (c : ascii) : Ascii.compare c c = Eq.
Proof. unfold Ascii.compare. apply N.compare_refl. Qed.

Lemma ascii_compare_lt_trans (a b c : ascii) :
  Ascii.compare a b = Lt -> Ascii.compare b c = Lt -> Ascii.compare a c = Lt.
Proof.
  unfold Ascii.compare. rewrite !N.compare_lt_iff. apply N.lt_trans.
Qed.

Lemma compare_lt_trans (x y z : string) :
  String.compare x y = Lt -> String.compare y z = Lt ->
  String.compare x z = Lt.
Proof.
  revert y z. induction x as [|a x IH]; intros [|b y] [|c z]; simpl;
    try discriminate; try reflexivity.
  destruct (Ascii.compare a b) eqn:Eab; try discriminate;
    destruct (Ascii.compare b c) eqn:Ebc; try discriminate.
  - apply Ascii.compare_eq_iff in Eab, Ebc. subst.
    rewrite ascii_compare_refl. apply IH.
  - apply Ascii.compare_eq_iff in Eab. subst. rewrite Ebc. reflexivity.
  - apply Ascii.compare_eq_iff in Ebc. subst. rewrite Eab. reflexivity.
  - rewrite (ascii_compare_lt_trans a b c Eab Ebc). reflexivity.
Qed.

Lemma compare_not_lt (x y : string) :
  String.compare x y = Gt -> String.compare y x = Lt.
Proof.
  intros H. rewrite String.compare_antisym, H. reflexivity.
Qed.

Lemma insert_day_sorted (d : DaySummary) (l : list DaySummary) :
  ~ In (date d) (List.map date l) ->
  StronglySorted (fun x y => String.compare (date x) (date y) = Lt) l ->
  StronglySorted (fun x y => String.compare (date x) (date y) = Lt)
    (insert_day d l).
Proof.
  induction l as [|x l IH]; intros Hnew Hs; simpl.
  - constructor; constructor.
  - apply StronglySorted_inv in Hs as [Hl Hx].
    destruct (String.compare (date d) (date x)) eqn:E.
    + exfalso. apply Hnew. left. symmetry.
      apply String.compare_eq_iff. exact E.
    + constructor; [constructor; assumption|].
      constructor; [exact E|].
      eapply Forall_impl; [exact Hx|]. simpl. intros y Hy.
      eapply compare_lt_trans; eassumption.
    + constructor.
      * apply IH; [|assumption]. intros Hin. apply Hnew. right. exact Hin.
      * rewrite (StatsFacts.insert_day_perm d l).
        constructor; [apply compare_not_lt; exact E|assumption].
Qed.

Lemma sort_days_sorted (l : list DaySummary) :
  NoDup (List.map date l) ->
  StronglySorted (fun x y => String.compare (date x) (date y) = Lt)
    (sort_days l).
Proof.
  induction l as [|d l IH]; intros Hnd; simpl; [constructor|].
  simpl in Hnd. apply NoDup_cons in Hnd as [Hd Hnd].
  apply insert_day_sorted; [|apply IH; exact Hnd].
  rewrite (Permutation_map date (StatsFacts.sort_days_perm l)).
  intros Hin. apply Hd. apply list_elem_of_In. exact Hin.
Qed.

Lemma dates_of_grouped (days : list DaySummary) (ms : list MealSummary) :
  groupedByDay days -> breakdownMeals days ≡ₚ ms ->
  list_to_set (List.map date days) = uniqueDates ms.
Proof.
  intros [_ Hall] Hp. unfold uniqueDates. apply set_eq. intros x.
  rewrite !elem_of_list_to_set. split.
  - intros Hx. apply list_elem_of_fmap in Hx as [d [-> Hd]].
    destruct (Hall d Hd) as [Hne Hday].
    destruct (meals d) as [|m l] eqn:E; [congruence|].
    apply list_elem_of_fmap. exists m. split.
    + symmetry. apply Hday. by left.
    + rewrite <- Hp. unfold breakdownMeals.
      apply list_elem_of_In, in_concat. exists (meals d). split.
      * apply in_map. apply list_elem_of_In. exact Hd.
      * rewrite E. by left.
  - intros Hx. apply list_elem_of_fmap in Hx as [m [-> Hm]].
    rewrite <- Hp in Hm. unfold breakdownMeals in Hm.
    apply list_elem_of_In, in_concat in Hm as [l [Hl Hm]].
    apply in_map_iff in Hl as [d [<- Hd]].
    apply list_elem_of_In in Hd.
    destruct (Hall d Hd) as [_ Hday].
    rewrite (Hday m) by (apply list_elem_of_In; exact Hm).
    apply list_elem_of_fmap. by exists d.
Qed.

(** X12: on a read that computes the statistics, the breakdown has one
    entry for each day that is counted in [totalDays], the entries stand in
    strictly ascending order of their date strings, and [totalMeals] is the
    number of meals of the owner in the range. *)
Theorem breakdown_is_ordered_by_date (now : Z)
    (owner startDate endDate : string) (st : State) (a b : Z) :
  cached now (userStatsCache st) (statsKey owner startDate endDate) = None ->
  Date.parse (startDate ++ "T00:00:00.000Z") = Some a ->
  Date.parse (endDate ++ "T23:59:59.999Z") = Some b ->
  exists s st',
    getRangeStatistics now owner startDate endDate st = Ok (RangeData s, st')
    /\ StronglySorted (fun x y => String.compare (date x) (date y) = Lt)
         (dailyBreakdown s)
    /\ Z.of_nat (length (dailyBreakdown s)) = totalDays s
    /\ totalMeals s = Z.of_nat (length (mealsBetween (db st) owner a b)).
Proof.
  intros Hmiss Ha Hb. eexists. eexists. split.
  { apply StatsFacts.getRangeStatistics_miss; eassumption. }
  pose proof (StatsFacts.findManyInRange_perm (db st) owner a b) as Hperm.
  rewrite <- (Permutation_length Hperm).
  unfold computed.
  destruct (findManyInRange (db st) owner a b) as [|m ms] eqn:E.
  { simpl. split; [constructor|]. split; reflexivity. }
  destruct (StatsFacts.dailyData_grouped (m :: ms)) as [Hg Hp].
  destruct (StatsFacts.sorted_breakdown_partitions (m :: ms)) as [Hg' Hp'].
  unfold statisticsOf. cbn [dailyBreakdown totalDays totalMeals].
  split; [apply sort_days_sorted, Hg|]. split; [|reflexivity].
  f_equal. rewrite <- (dates_of_grouped _ _ Hg' Hp').
  rewrite size_list_to_set by apply Hg'.
  rewrite length_map. reflexivity.
Qed.

Lemma breakdown_is_ordered_by_date_witness :
  exists s st',
    getRangeStatistics evening "u1" "2024-01-15" "2024-01-16" freshState
    = Ok (RangeData s, st')
    /\ StronglySorted (fun x y => String.compare (date x) (date y) = Lt)
         (dailyBreakdown s)
    /\ Z.of_nat (length (dailyBreakdown s)) = totalDays s
    /\ totalMeals s
       = Z.of_nat (length (mealsBetween (db freshState) "u1" monday
                             (monday + 2 * Date.msPerDay - 1))).
Proof.
  apply (breakdown_is_ordered_by_date evening "u1" "2024-01-15"
           "2024-01-16" freshState monday (monday + 2 * Date.msPerDay - 1)).
  - reflexivity.
  - vm_compute. reflexivity.
  - vm_compute. reflexivity.
Defined.

End RangeFacts.

(** ** The list of meals *)

Module MealListFacts.
Import Js Server.

Lemma insert_newest_first_perm (m : Meal) (l : list Meal) :
  insert_newest_first m l ≡ₚ m :: l.
Proof.
  induction l as [|x l IH]; simpl; [reflexivity|].
  destruct (created_at x <=? created_at m); [reflexivity|].
  rewrite IH. apply Permutation_swap.
Qed.

Lemma newest_first_perm (l : list Meal) : newest_first l ≡ₚ l.
Proof.
  induction l as [|x l IH]; simpl; [reflexivity|].
  rewrite insert_newest_first_perm, IH. reflexivity.
Qed.

Lemma insert_newest_first_sorted (m : Meal) (l : list Meal) :
  StronglySorted (fun x y => created_at y <= created_at x) l ->
  StronglySorted (fun x y => created_at y <= created_at x)
    (insert_newest_first m l).
Proof.
  induction l as [|x l IH]; intros Hs; simpl.
  - constructor; constructor.
  - apply StronglySorted_inv in Hs as [Hl Hx].
    destruct (created_at x <=? created_at m) eqn:E.
    + apply Z.leb_le in E. constructor.
      * constructor; assumption.
      * constructor; [exact E|].
        eapply Forall_impl; [exact Hx|]. simpl. intros y Hy. lia.
    + apply Z.leb_gt in E. constructor; [apply IH; assumption|].
      rewrite (insert_newest_first_perm m l).
      constructor; [lia|assumption].
Qed.

Lemma newest_first_sorted (l : list Meal) :
  StronglySorted (fun x y => created_at y <= created_at x) (newest_first l).
Proof.
  induction l as [|x l IH]; simpl; [constructor|].
  apply insert_newest_first_sorted. exact IH.
Qed.

Lemma getUserMeals_miss (now : Z) (owner : string) (offset limit : nat)
    (st : State) :
  cached now (mealsCache st)
    (mealsKey owner (Z.of_nat offset) (Z.of_nat limit)) = None ->
  exists st',
    getUserMeals now owner offset limit st
    = Ok (List.map processedMeal
            (take limit
               (drop offset
                  (newest_first
                     (List.filter (fun m => String.eqb (user_id m) owner)
                                  (db st))))),
          st')
    /\ db st' = db st.
Proof.
  intros Hmiss. unfold getUserMeals. rewrite Hmiss.
  eexists. split; reflexivity.
Qed.

(** X13: a read of the list that misses the cache answers a page of the
    meals of the owner, newest first: with the meals of the owner ordered by
    descending creation time, the page skips [offset] of them and holds the
    next [limit], or as many as are left.  No meal of another owner is on
    it. *)
Theorem meal_list_is_a_page_of_the_owner (now : Z) (owner : string)
    (offset limit : nat) (st : State) :
  cached now (mealsCache st)
    (mealsKey owner (Z.of_nat offset) (Z.of_nat limit)) = None ->
  exists all page st',
    getUserMeals now owner offset limit st
    = Ok (List.map processedMeal page, st')
    /\ all ≡ₚ List.filter (fun m => String.eqb (user_id m) owner) (db st)
    /\ StronglySorted (fun x y => created_at y <= created_at x) all
    /\ page = take limit (drop offset all)
    /\ length page = Nat.min limit (length all - offset)
    /\ (forall m, In m page -> In m (db st) /\ user_id m = owner).
Proof.
  intros Hmiss.
  destruct (getUserMeals_miss now owner offset limit st Hmiss)
    as [st' [Hget _]].
  eexists. eexists. exists st'. split; [exact Hget|].
  split; [apply newest_first_perm|].
  split; [apply newest_first_sorted|].
  split; [reflexivity|].
  split; [rewrite length_take, length_drop; reflexivity|].
  intros m Hm. apply list_elem_of_In in Hm.
  apply subseteq_take, subseteq_drop in Hm.
  rewrite newest_first_perm in Hm.
  apply list_elem_of_In, filter_In in Hm as [Hin Hown].
  split; [exact Hin|]. apply String.eqb_eq. exact Hown.
Qed.

Lemma meal_list_is_a_page_of_the_owner_witness :
  exists all page st',
    getUserMeals evening "u1" 1 2 freshState
    = Ok (List.map processedMeal page, st')
    /\ all ≡ₚ List.filter (fun m => String.eqb (user_id m) "u1")
                (db freshState)
    /\ StronglySorted (fun x y => created_at y <= created_at x) all
    /\ page = take 2 (drop 1 all)
    /\ length page = Nat.min 2 (length all - 1)
    /\ (forall m, In m page -> In m (db freshState) /\ user_id m = "u1").
Proof.
  apply (meal_list_is_a_page_of_the_owner evening "u1" 1 2 freshState).
  reflexivity.
Defined.



(** X15: the list of meals never reports a favourite or a rating.  The
    query selects no [is_favorite] and no rating column, so whatever the
    additives attachment of a row holds, its element of the list has
    [isFavorite] false, the four ratings 0 and no description; the
    attachment itself is passed on under [additives_json].  The view that
    the mutations answer ([transformMealForClient]) does read the flag from
    the attachment. *)
Theorem meal_list_reports_no_favourite (meal : Meal) :
  exists o,
    processedMeal meal = VObj o
    /\ get o "isFavorite" = VBool false
    /\ get o "tasteRating" = VNum 0
    /\ get o "satietyRating" = VNum 0
    /\ get o "energyRating" = VNum 0
    /\ get o "heavinessRating" = VNum 0
    /\ get o "description" = VUndef
    /\ get o "additives_json" = additives_json meal
    /\ (forall a, additives_json meal = VObj a ->
          truthy (get a "isFavorite") = true ->
          get (transformMealForClient meal) "isFavorite"
          = get a "isFavorite").
Proof.
  eexists. split; [reflexivity|].
  destruct meal as [id uid img up status name period n add ing cr upd].
  unfold selected. cbn [meal_id user_id image_url upload_time analysis_status
    meal_name meal_period num additives_json ingredients created_at
    updated_at].
  generalize (Date.toISOString up) (Date.toISOString cr)
    (Date.toISOString upd) (Str.of_Z id) (of_text img) (of_text name)
    (of_text period).
  intros s1 s2 s3 s4 v1 v2 v3.
  repeat split; try (vm_compute; reflexivity).
  intros a -> Ha.
  change (or (prop (or (VObj a) (VObj [])) "isFavorite") (VBool false)
          = get a "isFavorite").
  unfold or. cbn [truthy prop]. rewrite Ha. reflexivity.
Qed.

Lemma meal_list_reports_no_favourite_witness :
  get (transformMealForClient
         (sampleMeal 1 "u1" monday (Some 100%Q) None
            (VObj [("isFavorite", VBool true)]))) "isFavorite"
  = VBool true.
Proof.
  destruct (meal_list_reports_no_favourite
              (sampleMeal 1 "u1" monday (Some 100%Q) None
                 (VObj [("isFavorite", VBool true)])))
    as [o [_ [_ [_ [_ [_ [_ [_ [_ H]]]]]]]]].
  apply (H [("isFavorite", VBool true)]); reflexivity.
Defined.

(** X16: a read changes nothing but its own cache entry: the table and the
    other cache are as they were, and so is every other entry of the cache
    that it writes. *)
Theorem reads_change_only_their_own_entry (now : Z)
    (owner startDate endDate : string) (offset limit : nat) (st : State) :
  (forall r st',
     getRangeStatistics now owner startDate endDate st = Ok (r, st') ->
     db st' = db st /\ mealsCache st' = mealsCache st
     /\ forall key, key <> statsKey owner startDate endDate ->
          userStatsCache st' !! key = userStatsCache st !! key)
  /\ (forall r st',
        getUserMeals now owner offset limit st = Ok (r, st') ->
        db st' = db st /\ userStatsCache st' = userStatsCache st
        /\ forall key,
             key <> mealsKey owner (Z.of_nat offset) (Z.of_nat limit) ->
             mealsCache st' !! key = mealsCache st !! key).
Proof.
  split; intros r st'.
  - unfold getRangeStatistics.
    destruct (cached now (userStatsCache st) _).
    { intros [= _ <-]. repeat split. }
    destruct (Date.parse (startDate ++ _)); [|discriminate].
    destruct (Date.parse (endDate ++ _)); [|discriminate].
    intros [= _ <-]. simpl. repeat split.
    intros key Hkey. apply lookup_insert_ne. congruence.
  - unfold getUserMeals.
    destruct (cached now (mealsCache st) _).
    { intros [= _ <-]. repeat split. }
    intros [= _ <-]. simpl. repeat split.
    intros key Hkey. apply lookup_insert_ne. congruence.
Qed.

Lemma reads_change_only_their_own_entry_witness :
  db afterReads = sampleTable
  /\ userStatsCache afterReads !! statsKey "u12" "2024-01-15" "2024-01-16"
     = None.
Proof.
  destruct (reads_change_only_their_own_entry evening "u1" "2024-01-15"
              "2024-01-16" 0 100 freshState) as [_ Hlist].
  destruct (getUserMeals evening "u1" 0 100 freshState)
    as [[list st0]|] eqn:E0; [|discriminate].
  destruct (Hlist list st0 eq_refl) as [Hdb0 [Hstats0 _]].
  destruct (reads_change_only_their_own_entry evening "u1" "2024-01-15"
              "2024-01-16" 0 100 st0) as [Hrange _].
  destruct (getRangeStatistics evening "u1" "2024-01-15" "2024-01-16" st0)
    as [[s st1]|] eqn:E1.
  - destruct (Hrange s st1 eq_refl) as [Hdb1 [_ Hother]].
    assert (afterReads = st1) as ->.
    { unfold afterReads. rewrite E0, E1. reflexivity. }
    split; [rewrite Hdb1, Hdb0; reflexivity|].
    rewrite Hother by discriminate. rewrite Hstats0. reflexivity.
  - exfalso. revert E1. injection E0 as _ <-. vm_compute. discriminate.
Defined.

End MealListFacts.

(** ** The mutations, further *)

Module StoreFacts.
Import Js Server.

Lemma findFirst_None (rows : list Meal) (id : Z) (owner : string) :
  (forall m, In m rows -> meal_id m = id -> user_id m <> owner) ->
  findFirst rows id owner = None.
Proof.
  intros Hno. unfold findFirst.
  destruct (List.find _ rows) as [m|] eqn:E; [|reflexivity].
  apply find_some in E as [Hin H].
  apply andb_true_iff in H as [Hid Hown].
  apply Z.eqb_eq in Hid. apply String.eqb_eq in Hown.
  exfalso. exact (Hno m Hin Hid Hown).
Qed.

(** X17: a mutation of a meal that the caller does not own, or that does
    not exist, is refused before anything is written: the four mutations
    that name a meal throw, and neither the table nor a cache changes. *)
Theorem mutation_needs_an_owned_meal
    (analyzeMeal : string -> MealAnalysisInput -> result jsobj)
    (now : Z) (owner meal_id_param : string) (id : Z) (st : State)
    (text : string) (lang : option string) (feedback : jsval)
    (newDate : option string) :
  Num.parseInt meal_id_param = Some id ->
  (forall m, In m (db st) -> meal_id m = id -> user_id m <> owner) ->
  updateMeal analyzeMeal now owner meal_id_param text lang st
  = Err "Meal not found or access denied"
  /\ saveMealFeedback now owner meal_id_param feedback st
     = Err "Meal not found"
  /\ toggleMealFavorite now owner meal_id_param st = Err "Meal not found"
  /\ duplicateMeal now owner meal_id_param newDate st = Err "Meal not found".
Proof.
  intros Hid Hno. pose proof (findFirst_None _ _ _ Hno) as Hfind.
  unfold updateMeal, saveMealFeedback, toggleMealFavorite, duplicateMeal.
  rewrite Hid, Hfind. repeat split.
Qed.

Lemma mutation_needs_an_owned_meal_witness :
  updateMeal soup evening "u1" "5" "less salt" None freshState
  = Err "Meal not found or access denied"
  /\ saveMealFeedback evening "u1" "5" (VObj [("tasteRating", VNum 5)])
       freshState
     = Err "Meal not found"
  /\ toggleMealFavorite evening "u1" "5" freshState = Err "Meal not found"
  /\ duplicateMeal evening "u1" "5" None freshState = Err "Meal not found".
Proof.
  apply (mutation_needs_an_owned_meal soup evening "u1" "5" 5 freshState).
  - reflexivity.
  - intros m Hm Hid.
    repeat (destruct Hm as [<-|Hm]; [try discriminate Hid; discriminate|]).
    destruct Hm.
Defined.

Lemma cleared_statistics (owner key : string) (st : State) :
  key_of owner key ->
  userStatsCache (clearUserCaches owner st) !! key = None.
Proof.
  intros Hkey. unfold clearUserCaches. simpl.
  rewrite CacheFacts.lookup_invalidated.
  rewrite (CacheFacts.key_of_includes owner key Hkey). reflexivity.
Qed.

Lemma cleared_meals (owner key : string) (st : State) :
  key_of owner key ->
  mealsCache (clearUserMealsCaches owner st) !! key = None.
Proof.
  intros Hkey. unfold clearUserMealsCaches. simpl.
  rewrite CacheFacts.lookup_invalidated.
  rewrite (CacheFacts.key_of_includes owner key Hkey). reflexivity.
Qed.

Lemma cached_None {A : Type} (now : Z) (cache : gmap string (CacheEntry A))
    (key : string) :
  cache !! key = None -> cached now cache key = None.
Proof. intros H. unfold cached. rewrite H. reflexivity. Qed.

(** X18: after a feedback, a favourite toggle or a duplication has
    returned, none of the statistics of the owner is served from the cache:
    the next read of any range computes the statistics from the table as the
    mutation left it, and no daily statistics of the owner are cached. *)
Theorem statistics_are_recomputed_after_a_mutation (now later : Z)
    (owner meal_id_param startDate endDate : string) (feedback : jsval)
    (newDate : option string) (st st' : State) (a b : Z) :
  ((exists r, saveMealFeedback now owner meal_id_param feedback st
              = Ok (r, st'))
   \/ (exists r, toggleMealFavorite now owner meal_id_param st = Ok (r, st'))
   \/ (exists r, duplicateMeal now owner meal_id_param newDate st
                 = Ok (r, st'))) ->
  Date.parse (startDate ++ "T00:00:00.000Z") = Some a ->
  Date.parse (endDate ++ "T23:59:59.999Z") = Some b ->
  getRangeStatistics later owner startDate endDate st'
  = Ok (RangeData (computed (db st') owner startDate endDate a b),
        with_stats (statsKey owner startDate endDate) later
          (computed (db st') owner startDate endDate a b) st')
  /\ forall day, cached later (userStatsCache st') (dailyKey owner day) = None.
Proof.
  intros Hmut Ha Hb.
  assert (exists rows, st' = clearUserCaches owner (with_db rows st))
    as [rows ->].
  { destruct Hmut as [[r H]|[[r H]|[r H]]]; revert H.
    - unfold saveMealFeedback.
      destruct (Num.parseInt meal_id_param); [|discriminate].
      destruct (findFirst _ _ _); [|discriminate].
      intros [= _ <-]. eexists. reflexivity.
    - unfold toggleMealFavorite.
      destruct (Num.parseInt meal_id_param); [|discriminate].
      destruct (findFirst _ _ _); [|discriminate].
      intros [= _ <-]. eexists. reflexivity.
    - unfold duplicateMeal.
      destruct (Num.parseInt meal_id_param); [|discriminate].
      destruct (findFirst _ _ _); [|discriminate].
      destruct (match newDate with Some _ => _ | None => _ end);
        [|discriminate].
      destruct (create _ _ _) as [[meal rows]|]; [|discriminate].
      intros [= _ <-]. eexists. reflexivity. }
  split.
  - apply StatsFacts.getRangeStatistics_miss; try assumption.
    apply cached_None, cleared_statistics.
    left. exists startDate, endDate. reflexivity.
  - intros day. apply cached_None, cleared_statistics.
    right. left. exists day. reflexivity.
Qed.

Lemma statistics_are_recomputed_after_a_mutation_witness :
  exists st',
    (exists r, toggleMealFavorite (evening + 1000) "u1" "2" afterReads
               = Ok (r, st'))
    /\ cached evening (userStatsCache afterReads)
         (statsKey "u1" "2024-01-15" "2024-01-16") <> None
    /\ getRangeStatistics (evening + 2000) "u1" "2024-01-15" "2024-01-16" st'
       = Ok (RangeData
               (computed (db st') "u1" "2024-01-15" "2024-01-16" monday
                  (monday + 2 * Date.msPerDay - 1)),
             with_stats (statsKey "u1" "2024-01-15" "2024-01-16")
               (evening + 2000)
               (computed (db st') "u1" "2024-01-15" "2024-01-16" monday
                  (monday + 2 * Date.msPerDay - 1)) st').
Proof.
  eexists. split; [eexists; vm_compute; reflexivity|].
  split; [vm_compute; discriminate|].
  refine (proj1 (statistics_are_recomputed_after_a_mutation
                   (evening + 1000) (evening + 2000) "u1" "2" "2024-01-15"
                   "2024-01-16" VUndef None afterReads _ monday
                   (monday + 2 * Date.msPerDay - 1) _ _ _)).
  - right. left. eexists. vm_compute. reflexivity.
  - vm_compute. reflexivity.
  - vm_compute. reflexivity.
Defined.

Section Update.
Variable analyzeMeal : string -> MealAnalysisInput -> result jsobj.

(** X19: after an update has returned, no list of the meals of the owner is
    served from the cache: the next read of any page is taken from the table
    as the update left it. *)
Theorem meal_list_is_recomputed_after_an_update (now later : Z)
    (owner meal_id_param text : string) (lang : option string)
    (offset limit : nat) (st st' : State) (updated : Meal) :
  updateMeal analyzeMeal now owner meal_id_param text lang st
  = Ok (updated, st') ->
  exists st'',
    getUserMeals later owner offset limit st'
    = Ok (List.map processedMeal
            (take limit
               (drop offset
                  (newest_first
                     (List.filter (fun m => String.eqb (user_id m) owner)
                                  (db st'))))),
          st'').
Proof.
  intros Hup.
  assert (exists rows, st' = clearUserMealsCaches owner (with_db rows st))
    as [rows ->].
  { revert Hup. unfold updateMeal.
    destruct (Num.parseInt meal_id_param); [|discriminate].
    destruct (findFirst _ _ _); [|discriminate].
    destruct (String.eqb _ ""); [discriminate|].
    destruct (analyzeMeal _ _); [|discriminate].
    destruct (row_of_input _ _ _); [|discriminate].
    intros [= _ <-]. eexists. reflexivity. }
  destruct (MealListFacts.getUserMeals_miss later owner offset limit
              (clearUserMealsCaches owner (with_db rows st)))
    as [st'' [Hget _]].
  - apply cached_None, cleared_meals.
    right. right. eexists. eexists. reflexivity.
  - exists st''. exact Hget.
Qed.

End Update.

Lemma meal_list_is_recomputed_after_an_update_witness :
  exists updated st' st'',
    updateMeal soup (evening + 1000) "u1" "1" "less salt" None afterReads
    = Ok (updated, st')
    /\ getUserMeals (evening + 2000) "u1" 0 1 st'
       = Ok (List.map processedMeal
               (take 1
                  (drop 0
                     (newest_first
                        (List.filter (fun m => String.eqb (user_id m) "u1")
                                     (db st'))))),
             st'').
Proof.
  destruct (updateMeal soup (evening + 1000) "u1" "1" "less salt" None
              afterReads) as [[updated st']|] eqn:E.
  - destruct (meal_list_is_recomputed_after_an_update soup (evening + 1000)
                (evening + 2000) "u1" "1" "less salt" None 0 1 afterReads st'
                updated E) as [st'' H].
    exists updated, st', st''. split; [reflexivity|exact H].
  - exfalso. revert E. vm_compute. discriminate.
Defined.

(** *** What is written *)

Lemma or_number_column (v : jsval) (k : Q) :
  is_Some (column_number (or v (VNum k))) ->
  exists q, column_number (or v (VNum k)) = Some (Some q).
Proof.
  unfold or. destruct (truthy v) eqn:E; [|eauto].
  destruct v; simpl in *; try discriminate; eauto.
  all: intros [x [=]].
Qed.

Lemma mapped_num_column (mealData : jsobj) (f : NumericField) :
  is_Some (column_number (mapped_num mealData f)) ->
  exists q, column_number (mapped_num mealData f) = Some (Some q).
Proof. destruct f; apply or_number_column. Qed.

Lemma or_text_column (v : jsval) (d : string) (c : option string) :
  d <> "" ->
  column_text (or v (VStr d)) = Some c ->
  exists s, c = Some s /\ s <> "".
Proof.
  intros Hd. unfold or. destruct (truthy v) eqn:E.
  - destruct v; simpl in *; try discriminate.
    intros [= <-]. eexists. split; [reflexivity|].
    intros ->. discriminate.
  - simpl. intros [= <-]. eauto.
Qed.

Lemma or_text_first (s : string) (v : jsval) :
  s <> "" -> or (VStr s) v = VStr s.
Proof.
  intros Hs. unfold or. simpl.
  apply String.eqb_neq in Hs. rewrite Hs. reflexivity.
Qed.

Lemma row_of_input_Some (id updated : Z) (i : MealInput) (meal : Meal) :
  row_of_input id updated i = Some meal ->
  meal_id meal = id /\ user_id meal = in_user_id i
  /\ image_url meal = in_image_url i
  /\ upload_time meal = in_upload_time i
  /\ analysis_status meal = in_analysis_status i
  /\ created_at meal = in_created_at i /\ updated_at meal = updated
  /\ ingredients meal = in_ingredients i
  /\ additives_json meal = in_additives_json i
  /\ column_text (in_meal_name i) = Some (meal_name meal)
  /\ column_text (in_meal_period i) = Some (meal_period meal)
  /\ forall f, is_Some (column_number (in_num i f))
               /\ num meal f = default None (column_number (in_num i f)).
Proof.
  unfold row_of_input.
  destruct (forallb _ numericFields) eqn:Hall; [|discriminate].
  destruct (column_text (in_meal_name i)) as [name|]; [|discriminate].
  destruct (column_text (in_meal_period i)) as [period|]; [|discriminate].
  simpl. intros [= <-]. simpl. repeat split.
  rewrite forallb_forall in Hall.
  specialize (Hall f (StatsFacts.numericFields_complete f)).
  apply bool_decide_eq_true in Hall. exact Hall.
Qed.

(** X20: the row that [saveMeal] appends belongs to the caller, is stamped
    with the time of the call, and has no gap: every numeric column holds a
    number, and the name and the period are non-empty texts.  A confidence
    that the analysis gives as 0, or does not give, is stored as 75.  The
    rows that were there stay as they are, in their order. *)
Theorem saved_meal_has_no_gap (now : Z) (owner : string) (mealData : jsobj)
    (image : option string) (st st' : State) (view : jsobj) :
  saveMeal now owner mealData image st = Ok (view, st') ->
  exists meal,
    db st' = (db st ++ [meal])%list
    /\ view = transformMealForClient meal
    /\ user_id meal = owner
    /\ created_at meal = now /\ upload_time meal = now
    /\ analysis_status meal = "COMPLETED"
    /\ (forall f, exists q, num meal f = Some q)
    /\ (exists s, meal_name meal = Some s /\ s <> "")
    /\ (exists s, meal_period meal = Some s /\ s <> "")
    /\ (truthy (get mealData "confidence") = false ->
        num meal confidence = Some 75%Q).
Proof.
  unfold saveMeal, create. intros Hsave.
  destruct (row_of_input _ _ _) as [meal|] eqn:Hrow; [|discriminate].
  simpl in Hsave. injection Hsave as <- <-.
  apply row_of_input_Some in Hrow
    as (_ & Hown & _ & Hup & Hstat & Hcr & _ & _ & _ & Hname & Hper & Hnum).
  exists meal. simpl in *.
  split; [reflexivity|]. split; [reflexivity|].
  split; [exact Hown|]. split; [exact Hcr|]. split; [exact Hup|].
  split; [exact Hstat|]. split; [|split; [|split]].
  - intros f. destruct (Hnum f) as [Hsome ->].
    destruct (mapped_num_column _ _ Hsome) as [q ->]. eauto.
  - eapply or_text_column; [|exact Hname]. discriminate.
  - eapply or_text_column; [|exact Hper]. discriminate.
  - intros Hc. destruct (Hnum confidence) as [_ ->].
    simpl. unfold or. rewrite Hc. reflexivity.
Qed.

Lemma saved_meal_has_no_gap_witness :
  exists view st' meal,
    saveMeal evening "u1" [("name", VStr "toast"); ("confidence", VNum 0)]
      None freshState = Ok (view, st')
    /\ db st' = (db freshState ++ [meal])%list
    /\ num meal confidence = Some 75%Q.
Proof.
  destruct (saveMeal evening "u1"
              [("name", VStr "toast"); ("confidence", VNum 0)] None
              freshState) as [[view st']|] eqn:E.
  - destruct (saved_meal_has_no_gap _ _ _ _ _ _ _ E)
      as (meal & Hdb & _ & _ & _ & _ & _ & _ & _ & _ & Hc).
    exists view, st', meal. split; [reflexivity|]. split; [exact Hdb|].
    apply Hc. reflexivity.
  - exfalso. revert E. vm_compute. discriminate.
Defined.

Lemma findFirst_replace (rows : list Meal) (id : Z) (owner : string)
    (existing updated : Meal) :
  findFirst rows id owner = Some existing ->
  meal_id updated = id -> user_id updated = owner ->
  findFirst (update id (fun _ => updated) rows) id owner = Some updated.
Proof.
  intros Hfind Hid Hown. revert Hfind. unfold findFirst, update.
  induction rows as [|x rows IH]; simpl; [discriminate|].
  destruct (meal_id x =? id) eqn:E; simpl.
  - intros _. rewrite Hid, Hown, Z.eqb_refl, String.eqb_refl. reflexivity.
  - rewrite E. simpl. exact IH.
Qed.

Lemma update_keeps_others (rows : list Meal) (id : Z) (updated m : Meal) :
  meal_id updated = id -> meal_id m <> id ->
  In m (update id (fun _ => updated) rows) <-> In m rows.
Proof.
  intros Hid Hm. unfold update.
  induction rows as [|x rows IH]; simpl; [reflexivity|].
  rewrite IH. destruct (meal_id x =? id) eqn:E; [|reflexivity].
  apply Z.eqb_eq in E. split; intros [<-|H]; auto; contradiction.
Qed.

Section Restamp.
Variable analyzeMeal : string -> MealAnalysisInput -> result jsobj.

(** X21: an update that returns replaces the meal by a row built from the
    new analysis.  The row keeps the identifier, the owner and the period of
    the meal (a missing period becoming [other]) and holds the stored image
    as a JPEG data URL; its creation, upload and update times are all the
    time of the call, so the meal moves to the day of the update.  The meals
    with another identifier are untouched. *)
Theorem update_restamps_the_meal (now : Z)
    (owner meal_id_param text : string) (lang : option string) (id : Z)
    (st st' : State) (existing updated : Meal) :
  Num.parseInt meal_id_param = Some id ->
  findFirst (db st) id owner = Some existing ->
  updateMeal analyzeMeal now owner meal_id_param text lang st
  = Ok (updated, st') ->
  meal_id updated = id /\ user_id updated = owner
  /\ created_at updated = now /\ upload_time updated = now
  /\ updated_at updated = now
  /\ meal_period updated
     = Some (match meal_period existing with
             | Some p => if String.eqb p "" then "other" else p
             | None => "other"
             end)
  /\ (exists image,
        image <> ""
        /\ image_url updated = Some ("data:image/jpeg;base64," ++ image))
  /\ findFirst (db st') id owner = Some updated
  /\ (forall m, meal_id m <> id -> (In m (db st') <-> In m (db st))).
Proof.
  intros Hid Hfind. unfold updateMeal. rewrite Hid, Hfind.
  match goal with
  | |- context [String.eqb ?i ""] => set (image := i)
  end.
  destruct (String.eqb image "") eqn:Eimage; [discriminate|].
  apply String.eqb_neq in Eimage.
  destruct (analyzeMeal _ _) as [analysisData|]; [|discriminate].
  destruct (row_of_input _ _ _) as [row|] eqn:Hrow; [|discriminate].
  intros [= <- <-].
  apply row_of_input_Some in Hrow
    as (Hrid & Hown & Himg & Hup & _ & Hcr & Hupd & _ & _ & _ & Hper & _).
  simpl in *.
  split; [exact Hrid|]. split; [exact Hown|]. split; [exact Hcr|].
  split; [exact Hup|]. split; [exact Hupd|]. split; [|split; [|split]].
  - revert Hper.
    match goal with
    | |- context [VStr ?s] => set (period := s)
    end.
    assert (period <> "") as Hperiod.
    { subst period. destruct (meal_period existing) as [p|]; [|discriminate].
      destruct (String.eqb p "") eqn:Ep; [discriminate|].
      apply String.eqb_neq. exact Ep. }
    rewrite !(or_text_first period) by exact Hperiod. simpl. congruence.
  - exists image. split; [exact Eimage|]. rewrite Himg.
    apply String.eqb_neq in Eimage. rewrite Eimage. reflexivity.
  - eapply findFirst_replace; eassumption.
  - intros m Hm. apply update_keeps_others; assumption.
Qed.

End Restamp.

Lemma update_restamps_the_meal_witness :
  exists updated st',
    updateMeal soup evening "u1" "4" "less salt" None freshState
    = Ok (updated, st')
    /\ created_at updated = evening
    /\ findFirst (db st') 4 "u1" = Some updated.
Proof.
  destruct (updateMeal soup evening "u1" "4" "less salt" None freshState)
    as [[updated st']|] eqn:E.
  - destruct (update_restamps_the_meal soup evening "u1" "4" "less salt"
                None 4 freshState st'
                (sampleMeal 4 "u1" (monday + Date.msPerDay + 9 * 3600000)
                   (Some 400%Q) (Some 1%Q) (VObj []))
                updated eq_refl eq_refl E)
      as (_ & _ & Hcr & _ & _ & _ & _ & Hfind & _).
    exists updated, st'. split; [reflexivity|]. split; assumption.
  - exfalso. revert E. vm_compute. discriminate.
Defined.

End StoreFacts.

(** ** The statistics of a day *)

Module DailyFacts.
Import Js Server Daily.



Section Host.
Variable nextLocalDay : Z -> Z.




End Host.





End DailyFacts.

(** ** Cache keys *)

Module KeyFacts.
Import Js Server Daily Keys.

Lemma split_at_underscore (a a' b b' : string) :
  plain a = true -> plain a' = true ->
  a ++ String "_" b = a' ++ String "_" b' -> a = a' /\ b = b'.
Proof.
  revert a'. induction a as [|c a IH]; intros [|c' a'] Ha Ha' H; simpl in *.
  - injection H as ->. split; reflexivity.
  - injection H as <- _. discriminate.
  - injection H as -> _. discriminate.
  - injection H as -> H.
    apply andb_true_iff in Ha as [_ Ha], Ha' as [_ Ha'].
    destruct (IH a' Ha Ha' H) as [-> ->]. split; reflexivity.
Qed.

Lemma statsKey_owner (o o' s s' e e' : string) :
  plain o = true -> plain o' = true ->
  statsKey o s e = statsKey o' s' e' -> o = o'.
Proof.
  intros Ho Ho' H. unfold statsKey in H. simpl in H.
  injection H as H.
  apply (split_at_underscore o o' _ _ Ho Ho' H).
Qed.

Lemma dailyKey_owner (o o' d d' : string) :
  plain o = true -> plain o' = true ->
  dailyKey o d = dailyKey o' d' -> o = o'.
Proof.
  intros Ho Ho' H. unfold dailyKey in H. simpl in H.
  injection H as H.
  apply (split_at_underscore o o' _ _ Ho Ho' H).
Qed.

Lemma mealsKey_owner (o o' : string) (off off' lim lim' : Z) :
  plain o = true -> plain o' = true ->
  mealsKey o off lim = mealsKey o' off' lim' -> o = o'.
Proof.
  intros Ho Ho' H. unfold mealsKey in H. simpl in H.
  injection H as H.
  apply (split_at_underscore o o' _ _ Ho Ho' H).
Qed.

Section Host.
Variable nextLocalDay : Z -> Z.

(** X24: the reads keep owners apart.  When neither of two different owner
    identifiers holds an underscore, the cache keys that the three reads
    build for one of them are never keys of the other, so a read for one
    owner leaves every cache entry of the other as it was, and what the other
    is served next does not depend on it. *)
Theorem reads_keep_owners_apart (now : Z) (owner other : string)
    (startDate endDate day : string) (offset limit : nat) (st : State) :
  Keys.plain owner = true -> Keys.plain other = true -> owner <> other ->
  (forall r st',
     getRangeStatistics now owner startDate endDate st = Ok (r, st') ->
     forall key, key_of other key ->
       userStatsCache st' !! key = userStatsCache st !! key
       /\ mealsCache st' !! key = mealsCache st !! key)
  /\ (forall r st',
        getDailyStats nextLocalDay now owner day st = Ok (r, st') ->
        forall key, key_of other key ->
          userStatsCache st' !! key = userStatsCache st !! key
          /\ mealsCache st' !! key = mealsCache st !! key)
  /\ (forall r st',
        getUserMeals now owner offset limit st = Ok (r, st') ->
        forall key, key_of other key ->
          userStatsCache st' !! key = userStatsCache st !! key
          /\ mealsCache st' !! key = mealsCache st !! key).
Proof.
  intros Ho Ho' Hne.
  assert (forall key sd ed, key_of other key -> key <> statsKey owner sd ed)
    as Hstats.
  { intros key sd ed [[sd' [ed' ->]]|[[d' ->]|[off [lim ->]]]] H.
    - apply Hne. symmetry. eapply statsKey_owner; eassumption.
    - discriminate H.
    - discriminate H. }
  assert (forall key d, key_of other key -> key <> dailyKey owner d)
    as Hdaily.
  { intros key d [[sd' [ed' ->]]|[[d' ->]|[off [lim ->]]]] H.
    - discriminate H.
    - apply Hne. symmetry. eapply dailyKey_owner; eassumption.
    - discriminate H. }
  assert (forall key off lim, key_of other key -> key <> mealsKey owner off lim)
    as Hmeals.
  { intros key off lim [[sd' [ed' ->]]|[[d' ->]|[off' [lim' ->]]]] H.
    - discriminate H.
    - discriminate H.
    - apply Hne. symmetry. eapply mealsKey_owner; eassumption. }
  split; [|split]; intros r st'.
  - unfold getRangeStatistics.
    destruct (cached now (userStatsCache st) _).
    { intros [= _ <-]. split; reflexivity. }
    destruct (Date.parse (startDate ++ _)); [|discriminate].
    destruct (Date.parse (endDate ++ _)); [|discriminate].
    intros [= _ <-] key Hkey. simpl. split; [|reflexivity].
    apply lookup_insert_ne. intros H. symmetry in H. revert H.
    apply Hstats. exact Hkey.
  - unfold getDailyStats.
    destruct (cached now (userStatsCache st) _).
    { intros [= _ <-]. split; reflexivity. }
    destruct (Date.parse day); [|discriminate].
    intros [= _ <-] key Hkey. simpl. split; [|reflexivity].
    apply lookup_insert_ne. intros H. symmetry in H. revert H.
    apply Hdaily. exact Hkey.
  - unfold getUserMeals.
    destruct (cached now (mealsCache st) _).
    { intros [= _ <-]. split; reflexivity. }
    intros [= _ <-] key Hkey. simpl. split; [reflexivity|].
    apply lookup_insert_ne. intros H. symmetry in H. revert H.
    apply Hmeals. exact Hkey.
Qed.

End Host.

Lemma reads_keep_owners_apart_witness :
  exists r st',
    getRangeStatistics evening "u12" "2024-01-15" "2024-01-16" cachedState
    = Ok (r, st')
    /\ userStatsCache st' !! statsKey "u1" "2024-01-15" "2024-01-16"
       = Some statsEntry.
Proof.
  destruct (getRangeStatistics evening "u12" "2024-01-15" "2024-01-16"
              cachedState) as [[r st']|] eqn:E.
  - exists r, st'. split; [reflexivity|].
    destruct (reads_keep_owners_apart utcNextDay evening "u12" "u1"
                "2024-01-15" "2024-01-16" "2024-01-15" 0 100 cachedState
                eq_refl eq_refl ltac:(discriminate)) as [Hrange _].
    destruct (Hrange r st' E (statsKey "u1" "2024-01-15" "2024-01-16"))
      as [Hstats _].
    { left. exists "2024-01-15", "2024-01-16". reflexivity. }
    rewrite Hstats. reflexivity.
  - exfalso. revert E. vm_compute. discriminate.
Defined.

End KeyFacts.
